(** * Babylon autonomous agent: the HTTP A2A client, the action memory,
      the tool adapters and the tick loop of [agent_http.py].

    The Python module is embedded shallowly.  Module globals
    ([action_memory], [a2a_client]) and everything the process does to
    the outside (HTTP posts, clock reads, prints, sleeps) live in one
    [World]; code that can raise runs in a state-and-exception monad [M].
    What the module consumes from outside the repository (the remote
    server, the clock, the LLM graph, a few Python built-ins) is gathered
    in the record [Env]. *)

From Stdlib Require Import ZArith List String Ascii Bool Lia.
From Stdlib Require Import DecimalString Finite.
Import ListNotations.
Open Scope string_scope.
Open Scope Z_scope.

Set Implicit Arguments.
Set Warnings "-register-all".

(** ** Python values that cross the wire *)

(** A value produced by [response.json()] or handed to [json=...].
    A Python [str] is a [string], one [ascii] per character.  A Python
    [float] is carried by its binary64 bit pattern: the program never
    computes with one, it only passes it along. *)
Inductive json : Type :=
| JNull
| JBool (b : bool)
| JInt (n : Z)
| JFloat (bits : Z)
| JStr (s : string)
| JArr (xs : list json)
| JObj (kvs : list (string * json)).

(** A [dict] with [str] keys, in insertion order. *)
Definition dict := list (string * json).

Fixpoint dict_get (k : string) (d : dict) : option json :=
  match d with
  | [] => None
  | (k', v) :: d' => if String.eqb k k' then Some v else dict_get k d'
  end.

Definition dict_keys (d : dict) : list string := map fst d.

(** [d.get(k, default)] *)
Definition dict_get_default (k : string) (default : json) (d : dict) : json :=
  match dict_get k d with
  | Some v => v
  | None => default
  end.

(** ** Exceptions *)

(** Classes below [Exception]: the ones an [except Exception] clause
    catches.  [HTTPStatusError], [TransportError] and [JSONDecodeError]
    come from httpx and json; the others from the interpreter. *)
Inductive exception : Type :=
| Exception (msg : string)
| HTTPStatusError (status : Z) (msg : string)
| TransportError (msg : string)
| JSONDecodeError (msg : string)
| KeyError (key : string)
| TypeError (msg : string)
| AttributeError (msg : string)
| OtherError (msg : string).

(** Classes below [BaseException] only: [except Exception] lets them
    through. *)
Inductive signal : Type :=
| KeyboardInterrupt
| CancelledError
| SystemExit.

Inductive exn : Type :=
| Exc (e : exception)
| Sig (s : signal).

(** [str(e)].  A [KeyError] prints the repr of its key; the keys this
    module subscripts with are plain literals, whose repr is the key
    between single quotes. *)
Definition str_exception (e : exception) : string :=
  match e with
  | Exception msg => msg
  | HTTPStatusError _ msg => msg
  | TransportError msg => msg
  | JSONDecodeError msg => msg
  | KeyError key => "'" ++ key ++ "'"
  | TypeError msg => msg
  | AttributeError msg => msg
  | OtherError msg => msg
  end.

Inductive Result (A : Type) : Type :=
| Ok (a : A)
| Raise (e : exn).
Arguments Ok {A} a.
Arguments Raise {A} e.

(** ** Strings and sequences, the Python way *)

Definition nl : string := String (ascii_of_nat 10) EmptyString.

(** [s[:n]] on a [str] *)
Fixpoint str_slice_to (n : nat) (s : string) : string :=
  match n, s with
  | O, _ => EmptyString
  | S _, EmptyString => EmptyString
  | S n', String c s' => String c (str_slice_to n' s')
  end.

(** [sep.join(parts)] *)
Fixpoint join (sep : string) (parts : list string) : string :=
  match parts with
  | [] => EmptyString
  | [p] => p
  | p :: rest => p ++ sep ++ join sep rest
  end.

(** [l[-n:]] for a positive [n] *)
Definition last_n {A : Type} (n : nat) (l : list A) : list A :=
  skipn (List.length l - n) l.

(** [sub in s] on two [str]s, as a proposition. *)
Definition occurs_in (sub s : string) : Prop :=
  exists before after, s = before ++ sub ++ after.

Fixpoint count_char (c : ascii) (s : string) : nat :=
  match s with
  | EmptyString => O
  | String c' s' => (if Ascii.eqb c c' then 1 else 0) + count_char c s'
  end.

(** Number of lines of a text: one more than its line breaks. *)
Definition line_count (s : string) : nat := S (count_char (ascii_of_nat 10) s).

(** [str(n)] on an [int] *)
Definition str_int (n : Z) : string := NilZero.string_of_int (Z.to_int n).

(** [k in v] with a [str] on the left.  On a [dict] it is key membership,
    on a [list] element equality, on a [str] the substring test; the other
    values are no containers. *)
Fixpoint str_prefix (p s : string) : bool :=
  match p, s with
  | EmptyString, _ => true
  | String _ _, EmptyString => false
  | String a p', String b s' => Ascii.eqb a b && str_prefix p' s'
  end.

Fixpoint str_contains (sub s : string) : bool :=
  str_prefix sub s ||
  match s with
  | EmptyString => false
  | String _ s' => str_contains sub s'
  end.

Definition is_str (k : string) (v : json) : bool :=
  match v with
  | JStr s => String.eqb k s
  | _ => false
  end.

(** [type(v).__name__] *)
Definition type_name (v : json) : string :=
  match v with
  | JNull => "NoneType"
  | JBool _ => "bool"
  | JInt _ => "int"
  | JFloat _ => "float"
  | JStr _ => "str"
  | JArr _ => "list"
  | JObj _ => "dict"
  end.

Definition py_contains (k : string) (v : json) : Result bool :=
  match v with
  | JObj kvs => Ok (match dict_get k kvs with Some _ => true | None => false end)
  | JArr xs => Ok (existsb (is_str k) xs)
  | JStr s => Ok (str_contains k s)
  | _ => Raise (Exc (TypeError
           ("argument of type '" ++ type_name v ++ "' is not iterable")))
  end.

(** [v[k]] with a [str] key *)
Definition py_getitem (v : json) (k : string) : Result json :=
  match v with
  | JObj kvs =>
      match dict_get k kvs with
      | Some x => Ok x
      | None => Raise (Exc (KeyError k))
      end
  | JArr _ => Raise (Exc (TypeError "list indices must be integers or slices, not str"))
  | JStr _ => Raise (Exc (TypeError "string indices must be integers, not 'str'"))
  | _ => Raise (Exc (TypeError
           ("'" ++ type_name v ++ "' object is not subscriptable")))
  end.

(** [v.get(k, default)]: only a [dict] has the method. *)
Definition py_get (v : json) (k : string) (default : json) : Result json :=
  match v with
  | JObj kvs => Ok (dict_get_default k default kvs)
  | _ => Raise (Exc (AttributeError
           ("'" ++ type_name v ++ "' object has no attribute 'get'")))
  end.

(** ** The process and its surroundings *)

(** One entry of [action_memory]: the dict with keys ['action'],
    ['result'] and ['timestamp']. *)
Record MemoryEntry : Type := {
  action : string;
  result : json;
  timestamp : string
}.

Record HttpRequest : Type := {
  url : string;
  headers : list (string * string);
  body : json
}.

(** What [await self.client.post(...)] can do: raise, or hand back a
    response with a status code and the outcome of [response.json()]. *)
Inductive PostOutcome : Type :=
| PostRaises (e : exn)
| Response (status_code : Z) (decoded : Result json).

(** What [main] prints inside the loop, one constructor for each run of
    consecutive [print]s: the banner of a pass, its success with the first
    100 characters of the decision, its failure with [str(e)], the sleep
    announcement, and the two shutdown messages. *)
Inductive LogLine : Type :=
| TickBanner (n : Z)
| TickComplete (n : Z) (decision : string)
| TickFailed (n : Z) (err : string)
| Sleeping (secs : Z)
| ShuttingDown
| Goodbye.

Inductive Event : Type :=
| EvPost (req : HttpRequest)
| EvClock
| EvPrint (line : LogLine)
| EvSleep (secs : Z)
| EvClose.

Record BabylonA2AClient : Type := {
  http_url : string;
  address : string;
  token_id : Z;
  private_key : string;
  message_id : Z;
  agent_id : string
}.

(** Module globals and the trace of effects, oldest first. *)
Record World : Type := {
  action_memory : list MemoryEntry;
  a2a_client : option BabylonA2AClient;
  trace : list Event
}.

(** External collaborators.  The remote side and the clock may answer
    differently each time: they see the trace so far. *)
Record Env : Type := {
  post : list Event -> HttpRequest -> PostOutcome;
  status_message : Z -> string;
  now_isoformat : list Event -> string;
  py_repr : json -> string;
  str_upper : string -> string;
  json_dumps : json -> string;
  graph_ainvoke : string -> string -> World -> Result string * World;
  asyncio_sleep : list Event -> Z -> option signal
}.

(** ** State and exceptions *)

Definition ME (S A : Type) : Type := S -> Result A * S.
Definition M : Type -> Type := ME World.

Definition ret {S A : Type} (a : A) : ME S A := fun s => (Ok a, s).

Definition raise {S A : Type} (e : exn) : ME S A := fun s => (Raise e, s).

Definition bind {S A B : Type} (m : ME S A) (k : A -> ME S B) : ME S B :=
  fun s =>
    match m s with
    | (Ok a, s') => k a s'
    | (Raise e, s') => (Raise e, s')
    end.

Definition lift {S A : Type} (r : Result A) : ME S A := fun s => (r, s).

Declare Scope py_scope.
Delimit Scope py_scope with py.
Notation "x <- m ;; k" := (bind m (fun x => k))
  (at level 61, m at next level, right associativity) : py_scope.
Notation "m ;;; k" := (bind m (fun _ => k))
  (at level 61, right associativity) : py_scope.
Open Scope py_scope.

(** [try: m   except Exception as e: handler e] *)
Definition try_except {S A : Type} (m : ME S A) (handler : exception -> ME S A)
  : ME S A :=
  fun s =>
    match m s with
    | (Raise (Exc e), s') => handler e s'
    | other => other
    end.

(** [try: m   except KeyboardInterrupt: handler] *)
Definition try_except_interrupt {S A : Type} (m : ME S A) (handler : ME S A)
  : ME S A :=
  fun s =>
    match m s with
    | (Raise (Sig KeyboardInterrupt), s') => handler s'
    | other => other
    end.

Definition emit (ev : Event) : M unit :=
  fun w => (Ok tt, {| action_memory := action_memory w;
                      a2a_client := a2a_client w;
                      trace := (trace w ++ [ev])%list |}).

Definition print (line : LogLine) : M unit := emit (EvPrint line).

Section Agent.

Variable env : Env.

(** [str(v)] and [f"{v}"]: a [str] is itself, anything else its repr. *)
Definition py_str (v : json) : string :=
  match v with
  | JStr s => s
  | _ => py_repr env v
  end.

(** *** Memory *)

(** [action_memory.append(e)], then [pop(0)] once the length is over 20. *)
Definition append_bounded (e : MemoryEntry) (log : list MemoryEntry)
  : list MemoryEntry :=
  let log := (log ++ [e])%list in
  if (20 <? List.length log)%nat then tl log else log.

Definition add_to_memory (action : string) (result : json) : M unit :=
  fun w =>
    let e := {| action := action;
                result := result;
                timestamp := now_isoformat env (trace w) |} in
    (Ok tt, {| action_memory := append_bounded e (action_memory w);
               a2a_client := a2a_client w;
               trace := (trace w ++ [EvClock])%list |}).

Definition format_entry (a : MemoryEntry) : string :=
  "[" ++ timestamp a ++ "] " ++ action a ++ ": "
      ++ str_slice_to 80 (py_str (result a)).

Definition memory_summary (log : list MemoryEntry) : string :=
  match log with
  | [] => "No recent actions."
  | _ => let recent := last_n 5 log in join nl (map format_entry recent)
  end.

Definition get_memory_summary : M string :=
  fun w => (Ok (memory_summary (action_memory w)), w).

(** *** HTTP A2A client *)

(** [BabylonA2AClient.__init__] *)
Definition client_init (http_url address : string) (token_id : Z)
    (private_key : string) : BabylonA2AClient :=
  {| http_url := http_url;
     address := address;
     token_id := token_id;
     private_key := private_key;
     message_id := 1;
     agent_id := "11155111:" ++ str_int token_id |}.

(** [params or {}] *)
Definition params_or_empty (params : option dict) : dict :=
  match params with
  | Some (kv :: rest) => kv :: rest
  | _ => []
  end.

(** [response.raise_for_status()]: httpx raises on every status outside
    200..299. *)
Definition is_success (status : Z) : bool :=
  (200 <=? status) && (status <=? 299).

Definition raise_for_status {S : Type} (status : Z) : ME S unit :=
  if is_success status then ret tt
  else raise (Exc (HTTPStatusError status (status_message env status))).

(** The state a method of the client runs on: the instance and the trace. *)
Definition ClientState : Type := (BabylonA2AClient * list Event)%type.

Definition call_headers (self : BabylonA2AClient) : list (string * string) :=
  [ ("Content-Type", "application/json");
    ("x-agent-id", agent_id self);
    ("x-agent-address", address self);
    ("x-agent-token-id", str_int (token_id self)) ].

Definition call_message (method : string) (params : option dict)
    (request_id : Z) : json :=
  JObj [ ("jsonrpc", JStr "2.0");
         ("method", JStr method);
         ("params", JObj (params_or_empty params));
         ("id", JInt request_id) ].

Definition set_message_id (n : Z) (self : BabylonA2AClient) : BabylonA2AClient :=
  {| http_url := http_url self;
     address := address self;
     token_id := token_id self;
     private_key := private_key self;
     message_id := n;
     agent_id := agent_id self |}.

(** [request_id = self.message_id; self.message_id += 1] *)
Definition next_request_id : ME ClientState Z :=
  fun '(self, tr) =>
    (Ok (message_id self), (set_message_id (message_id self + 1) self, tr)).

(** [await self.client.post(self.http_url, json=message, headers=headers)] *)
Definition client_post (message : json) : ME ClientState (Z * Result json) :=
  fun '(self, tr) =>
    let req := {| url := http_url self;
                  headers := call_headers self;
                  body := message |} in
    let st := (self, (tr ++ [EvPost req])%list) in
    match post env tr req with
    | PostRaises e => (Raise e, st)
    | Response status decoded => (Ok (status, decoded), st)
    end.

(** [BabylonA2AClient.call] *)
Definition call (method : string) (params : option dict) : ME ClientState json :=
  request_id <- next_request_id ;;
  let message := call_message method params request_id in
  response <- client_post message ;;
  raise_for_status (fst response) ;;;
  result <- lift (snd response) ;;
  has_error <- lift (py_contains "error" result) ;;
  if (has_error : bool) then
    err <- lift (py_getitem result "error") ;;
    msg <- lift (py_getitem err "message") ;;
    raise (Exc (Exception ("A2A Error: " ++ py_str msg)))
  else
    lift (py_getitem result "result").

(** [BabylonA2AClient.close] *)
Definition close : ME ClientState unit :=
  fun '(self, tr) => (Ok tt, (self, (tr ++ [EvClose])%list)).

(** A method call on the global [a2a_client]: an attribute lookup on
    [None] fails; otherwise the method runs on the one shared instance. *)
Definition on_a2a_client {A : Type} (attr : string) (m : ME ClientState A) : M A :=
  fun w =>
    match a2a_client w with
    | None =>
        (Raise (Exc (AttributeError
           ("'NoneType' object has no attribute '" ++ attr ++ "'"))), w)
    | Some self =>
        let '(r, (self', tr')) := m (self, trace w) in
        (r, {| action_memory := action_memory w;
               a2a_client := Some self';
               trace := tr' |})
    end.

Definition a2a_client_call (method : string) (params : option dict) : M json :=
  on_a2a_client "call" (call method params).

(** [a2a_client.agent_id] *)
Definition a2a_client_agent_id : M string :=
  on_a2a_client "agent_id" (fun st => (Ok (agent_id (fst st)), st)).

(** *** Tools *)

Definition error_payload (e : exception) : json :=
  JObj [("error", JStr (str_exception e))].

Definition get_markets : M string :=
  try_except
    (result <- a2a_client_call "a2a.getMarketData" (Some []) ;;
     ret (json_dumps env result))
    (fun e => ret (json_dumps env (error_payload e))).

Definition get_portfolio : M string :=
  try_except
    (balance <- a2a_client_call "a2a.getBalance" (Some []) ;;
     positions <-
       (on_a2a_client "call" (ret tt) ;;;
        user_id <- a2a_client_agent_id ;;
        a2a_client_call "a2a.getPositions" (Some [("userId", JStr user_id)])) ;;
     bal <- lift (py_get balance "balance" (JInt 0)) ;;
     ret (json_dumps env (JObj [("balance", bal); ("positions", positions)])))
    (fun e => ret (json_dumps env (error_payload e))).

Definition buy_shares (market_id outcome : string) (amount : Z) : M string :=
  try_except
    (result <- a2a_client_call "a2a.buyShares"
                 (Some [ ("marketId", JStr market_id);
                         ("outcome", JStr (str_upper env outcome));
                         ("amount", JFloat amount) ]) ;;
     add_to_memory ("BUY_" ++ str_upper env outcome) result ;;;
     ret (json_dumps env result))
    (fun e => ret (json_dumps env (error_payload e))).

Definition create_post (content : string) : M string :=
  try_except
    (result <- a2a_client_call "a2a.createPost"
                 (Some [ ("content", JStr (str_slice_to 280 content));
                         ("type", JStr "post") ]) ;;
     add_to_memory "CREATE_POST" result ;;;
     ret (json_dumps env result))
    (fun e => ret (json_dumps env (error_payload e))).

(** [get_feed(limit: int = 20)] *)
Definition get_feed_default_limit : Z := 20.

Definition get_feed (limit : Z) : M string :=
  try_except
    (result <- a2a_client_call "a2a.getFeed"
                 (Some [ ("limit", JInt limit); ("offset", JInt 0) ]) ;;
     posts <- lift (py_get result "posts" (JArr [])) ;;
     ret (json_dumps env posts))
    (fun e => ret (json_dumps env (error_payload e))).

(** *** The agent *)

Record BabylonAgent : Type := { strategy : string }.

(** [SYSTEM_INSTRUCTION.format(strategy=..., memory=...)] *)
Definition system_instruction (strategy memory : string) : string :=
  "You are an autonomous trading agent for Babylon prediction markets.

Your capabilities:
- Trade prediction markets (buy YES/NO shares)
- Post insights to the feed
- Analyze markets and sentiment

Strategy: " ++ strategy ++ "

Guidelines:
- Only trade when you have strong conviction
- Keep posts under 280 characters
- Be thoughtful and add value

Recent Memory:
" ++ memory ++ "

Your task: Analyze the current state and decide what action to take.
Use the available tools to gather information and execute actions.
".

Definition get_system_prompt (self : BabylonAgent) : M string :=
  memory <- get_memory_summary ;;
  ret (system_instruction (strategy self) memory).

(** [BabylonAgent.decide]: the graph run (the model and whatever tools it
    picks) is the collaborator [graph_ainvoke]; what comes back is the
    text of the last message, the ['decision']. *)
Definition decide (self : BabylonAgent) (session_id : string) : M string :=
  system_prompt <- get_system_prompt self ;;
  let prompt :=
    system_prompt ++ nl ++ nl
      ++ "Analyze the current state and decide what action to take." in
  graph_ainvoke env prompt session_id.

(** *** Main loop *)

(** [await asyncio.sleep(tick_interval)] *)
Definition sleep (secs : Z) : M unit :=
  fun w =>
    let w' := {| action_memory := action_memory w;
                 a2a_client := a2a_client w;
                 trace := (trace w ++ [EvSleep secs])%list |} in
    match asyncio_sleep env (trace w) secs with
    | None => (Ok tt, w')
    | Some s => (Raise (Sig s), w')
    end.

(** One pass through the body of [while True]; the value is the new
    [tick_count]. *)
Definition tick (babylon_agent : BabylonAgent) (session_id : string)
    (tick_interval tick_count : Z) : M Z :=
  let tick_count := tick_count + 1 in
  print (TickBanner tick_count) ;;;
  try_except
    (decision <- decide babylon_agent session_id ;;
     print (TickComplete tick_count (str_slice_to 100 decision)))
    (fun e => print (TickFailed tick_count (str_exception e))) ;;;
  print (Sleeping tick_interval) ;;;
  sleep tick_interval ;;;
  ret tick_count.

(** The loop, watched for [fuel] passes: the value is the [tick_count]
    reached, unless something was raised out of a pass. *)
Fixpoint while_true (fuel : nat) (babylon_agent : BabylonAgent)
    (session_id : string) (tick_interval tick_count : Z) : M Z :=
  match fuel with
  | O => ret tick_count
  | S fuel' =>
      tick_count' <- tick babylon_agent session_id tick_interval tick_count ;;
      while_true fuel' babylon_agent session_id tick_interval tick_count'
  end.

Inductive LoopStatus : Type :=
| Running (tick_count : Z)
| Stopped.

(** Phase 4 of [main]: the loop inside [try ... except KeyboardInterrupt]. *)
Definition autonomous_loop (fuel : nat) (babylon_agent : BabylonAgent)
    (session_id : string) (tick_interval : Z) : M LoopStatus :=
  try_except_interrupt
    (n <- while_true fuel babylon_agent session_id tick_interval 0 ;;
     ret (Running n))
    (print ShuttingDown ;;;
     on_a2a_client "close" close ;;;
     print Goodbye ;;;
     ret Stopped).

End Agent.

(** ** Sequences of operations *)

(** A run of [add_to_memory] calls, one per (action, result) pair. *)
Fixpoint add_all_to_memory (env : Env) (ops : list (string * json)) : M unit :=
  match ops with
  | [] => ret tt
  | (a, r) :: rest => add_to_memory env a r ;;; add_all_to_memory env rest
  end.

(** A run of [call]s on one client instance; failed calls are stepped
    over, the way a caller that catches them would. *)
Fixpoint call_all (env : Env) (calls : list (string * option dict))
    (st : ClientState) : ClientState :=
  match calls with
  | [] => st
  | (method, params) :: rest => call_all env rest (snd (call env method params st))
  end.

(** The request a [call] on [self] posts. *)
Definition call_request (self : BabylonA2AClient) (method : string)
    (params : option dict) : HttpRequest :=
  {| url := http_url self;
     headers := call_headers self;
     body := call_message method params (message_id self) |}.

(** A decoded body that is a mapping with the field [k]. *)
Definition has_field (k : string) (v : json) : bool :=
  match v with
  | JObj kvs => match dict_get k kvs with Some _ => true | None => false end
  | _ => false
  end.

Definition posts_of (tr : list Event) : list HttpRequest :=
  flat_map (fun ev => match ev with EvPost req => [req] | _ => [] end) tr.

(** The ['id'] (and ['method'], ['params']) of a request envelope. *)
Definition envelope_field (k : string) (req : HttpRequest) : option json :=
  match body req with
  | JObj kvs => dict_get k kvs
  | _ => None
  end.

(** ** A scripted surrounding, to run the definitions on *)

Definition ascii_upper (c : ascii) : ascii :=
  let n := nat_of_ascii c in
  if ((97 <=? n) && (n <=? 122))%nat then ascii_of_nat (n - 32) else c.

(** [str.upper] on ASCII text. *)
Fixpoint upper_ascii (s : string) : string :=
  match s with
  | EmptyString => EmptyString
  | String c s' => String (ascii_upper c) (upper_ascii s')
  end.

(** A plain renderer, enough for texts without quotes or control
    characters. *)
Fixpoint render (v : json) : string :=
  match v with
  | JNull => "null"
  | JBool true => "true"
  | JBool false => "false"
  | JInt n => str_int n
  | JFloat bits => "float:" ++ str_int bits
  | JStr s => "'" ++ s ++ "'"
  | JArr xs => "[" ++ join ", " (map render xs) ++ "]"
  | JObj kvs =>
      "{" ++ join ", "
               (map (fun kv => match kv with
                               | (k, x) => "'" ++ k ++ "': " ++ render x
                               end) kvs) ++ "}"
  end.

(** The remote side answers the n-th post with the n-th line of a script
    and refuses connections once the script is over; the graph run gives
    a fixed outcome and leaves the world alone; sleeps are never cut
    short. *)
Definition scripted (script : list PostOutcome) (decision : Result string)
  : Env :=
  {| post := fun tr _ =>
       nth (List.length (posts_of tr)) script
           (PostRaises (Exc (TransportError "All connection attempts failed")));
     status_message := fun status => "HTTP status " ++ str_int status;
     now_isoformat := fun tr =>
       "2025-01-01T00:00:00." ++ str_int (Z.of_nat (List.length tr));
     py_repr := render;
     str_upper := upper_ascii;
     json_dumps := render;
     graph_ainvoke := fun _ _ w => (decision, w);
     asyncio_sleep := fun _ _ => None |}.

Definition empty_world : World :=
  {| action_memory := []; a2a_client := None; trace := [] |}.

Definition world_with (self : BabylonA2AClient) : World :=
  {| action_memory := []; a2a_client := Some self; trace := [] |}.

(** ** Notions used to state the properties *)

Definition label (e : MemoryEntry) : string * json := (action e, result e).

Definition twenty_one_posts : list (string * json) :=
  map (fun n => ("CREATE_POST", JInt (Z.of_nat n))) (seq 1 21).

(** An entry whose three rendered parts hold no line break. *)
Definition one_line (s : string) : Prop := count_char (ascii_of_nat 10) s = O.

Definition one_line_entry (env : Env) (a : MemoryEntry) : Prop :=
  one_line (timestamp a) /\ one_line (action a) /\
  one_line (py_str env (result a)).

(** What [call] makes of a decoded body, and of the outcome of the post. *)
Definition decode_body (env : Env) (result : json) : Result json :=
  match py_contains "error" result with
  | Raise e => Raise e
  | Ok true =>
      match py_getitem result "error" with
      | Raise e => Raise e
      | Ok err =>
          match py_getitem err "message" with
          | Raise e => Raise e
          | Ok msg => Raise (Exc (Exception ("A2A Error: " ++ py_str env msg)))
          end
      end
  | Ok false => py_getitem result "result"
  end.

Definition call_result (env : Env) (outcome : PostOutcome) : Result json :=
  match outcome with
  | PostRaises e => Raise e
  | Response status decoded =>
      if is_success status then
        match decoded with
        | Ok result => decode_body env result
        | Raise e => Raise e
        end
      else Raise (Exc (HTTPStatusError status (status_message env status)))
  end.

Definition remote_error (message : string) : json :=
  JObj [("error", JObj [("code", JInt (-32000)); ("message", JStr message)])].

Definition after_call (w : World) (self : BabylonA2AClient) (req : HttpRequest)
  : World :=
  {| action_memory := action_memory w;
     a2a_client := Some (set_message_id (message_id self + 1) self);
     trace := (trace w ++ [EvPost req])%list |}.

(** The world after a recorded call went through: the request posted, the
    clock read, the entry in the log. *)
Definition after_record (env : Env) (w : World) (self : BabylonA2AClient)
    (req : HttpRequest) (label : string) (r : json) : World :=
  let w1 := after_call w self req in
  {| action_memory :=
       append_bounded {| action := label; result := r;
                         timestamp := now_isoformat env (trace w1) |}
                      (action_memory w);
     a2a_client := a2a_client w1;
     trace := (trace w1 ++ [EvClock])%list |}.

Definition bought : json := JObj [("success", JBool true)].

Fixpoint str_repeat (c : ascii) (n : nat) : string :=
  match n with
  | O => EmptyString
  | S n' => String c (str_repeat c n')
  end.

Definition posted : json := JObj [("postId", JStr "p1")].

Definition balance_of_100 : json := JObj [("balance", JInt 100)].

Definition extend (w : World) (evs : list Event) : World :=
  {| action_memory := action_memory w;
     a2a_client := a2a_client w;
     trace := (trace w ++ evs)%list |}.

Definition sleep_result (env : Env) (tr : list Event) (secs : Z) : Result unit :=
  match asyncio_sleep env tr secs with
  | None => Ok tt
  | Some s => Raise (Sig s)
  end.

Definition decide_prompt (babylon_agent : BabylonAgent) (env : Env) (w : World)
  : string :=
  system_instruction (strategy babylon_agent)
    (memory_summary env (action_memory w))
    ++ nl ++ nl ++ "Analyze the current state and decide what action to take.".

Definition model_down : exception := OtherError "model unavailable".

(** ** The tools the agent registers *)

(** One invocation of a tool of [BabylonAgent.tools], with its arguments. *)
Inductive ToolCall : Type :=
| GetMarkets
| GetPortfolio
| BuyShares (market_id outcome : string) (amount : Z)
| CreatePost (content : string)
| GetFeed (limit : Z).

Definition invoke (env : Env) (t : ToolCall) : M string :=
  match t with
  | GetMarkets => get_markets env
  | GetPortfolio => get_portfolio env
  | BuyShares market_id outcome amount => buy_shares env market_id outcome amount
  | CreatePost content => create_post env content
  | GetFeed limit => get_feed env limit
  end.

(** A run of tool invocations, in the order the graph makes them; what each
    returns goes back to the graph, the world carries on. *)
Fixpoint invoke_all (env : Env) (ts : list ToolCall) (w : World) : World :=
  match ts with
  | [] => w
  | t :: rest => invoke_all env rest (snd (invoke env t w))
  end.

Definition request_ids (reqs : list HttpRequest) : list (option json) :=
  map (envelope_field "id") reqs.

(** The ids [first], [first + 1], ... of [n] requests. *)
Definition ids_from (first : Z) (n : nat) : list (option json) :=
  map (fun i => Some (JInt (first + Z.of_nat i))) (seq 0 n).

(** ** Startup *)

(** What [main] reads from the process and from the libraries it starts
    up: the environment variables, the address of the account of a key
    ([Account.from_key(k).address], and what [from_key] raises when handed
    [None]), the clock ([int(time.time())]), the outcome of building the
    model and the graph, and [int] on a text. *)
Record Process : Type := {
  getenv : string -> option string;
  account_address : string -> Result string;
  from_key_none : exn;
  time_time : Z;
  build_graph : Result unit;
  py_int : string -> Result Z
}.

(** [os.getenv(name, default)] *)
Definition getenv_default (proc : Process) (name default : string) : string :=
  match getenv proc name with
  | Some v => v
  | None => default
  end.

Module Identity.

(** The [identity] dict of [main]. *)
Record t : Type := {
  tokenId : Z;
  address : string;
  agentId : string;
  name : string
}.

End Identity.

(** The body of the [try] of phase 1. *)
Definition identity_setup (proc : Process) : Result Identity.t :=
  match
    match getenv proc "AGENT0_PRIVATE_KEY" with
    | Some key => account_address proc key
    | None => Raise (from_key_none proc)
    end
  with
  | Raise e => Raise e
  | Ok account_address =>
      let token_id := time_time proc mod 100000 in
      Ok {| Identity.tokenId := token_id;
            Identity.address := account_address;
            Identity.agentId := "11155111:" ++ str_int token_id;
            Identity.name := getenv_default proc "AGENT_NAME" "Python Babylon Agent" |}
  end.

(** [BabylonAgent(strategy=strategy)] *)
Definition agent_init (proc : Process) (strategy : string) : Result BabylonAgent :=
  match build_graph proc with
  | Ok _ => Ok {| strategy := strategy |}
  | Raise e => Raise e
  end.

(** [global a2a_client; a2a_client = client] *)
Definition set_a2a_client (client : BabylonA2AClient) : M unit :=
  fun w => (Ok tt, {| action_memory := action_memory w;
                      a2a_client := Some client;
                      trace := trace w |}).

(** Where [main] ended: at the [return] of a failed phase, with the text
    of the exception it printed there, or in the loop. *)
Inductive MainEnd : Type :=
| IdentitySetupFailed (err : string)
| AgentInitFailed (err : string)
| LoopEnded (status : LoopStatus).

(** [main], its loop watched for [fuel] passes.  The prints of the
    startup phases are left to [MainEnd]: each path prints a fixed run of
    lines.  The client is handed [os.getenv('AGENT0_PRIVATE_KEY')] again;
    phase 1 gets through only when the variable is set. *)
Definition main (env : Env) (proc : Process) (fuel : nat) : M MainEnd :=
  identity <- try_except
                (identity <- lift (identity_setup proc) ;; ret (inl identity))
                (fun e => ret (inr (IdentitySetupFailed (str_exception e)))) ;;
  match identity with
  | inr ended => ret ended
  | inl identity =>
      let a2a_url :=
        getenv_default proc "BABYLON_A2A_URL" "http://localhost:3000/api/a2a" in
      set_a2a_client
        (client_init a2a_url (Identity.address identity)
           (Identity.tokenId identity)
           (getenv_default proc "AGENT0_PRIVATE_KEY" "")) ;;;
      babylon_agent <-
        try_except
          (let strategy := getenv_default proc "AGENT_STRATEGY" "balanced" in
           babylon_agent <- lift (agent_init proc strategy) ;;
           ret (inl babylon_agent))
          (fun e => ret (inr (AgentInitFailed (str_exception e)))) ;;
      match babylon_agent with
      | inr ended => ret ended
      | inl babylon_agent =>
          tick_interval <-
            lift (py_int proc (getenv_default proc "TICK_INTERVAL" "30")) ;;
          status <- autonomous_loop env fuel babylon_agent
                      (Identity.agentId identity) tick_interval ;;
          ret (LoopEnded status)
      end
  end.

(** A process with the given variables, a key whose account has a fixed
    address, and a graph that builds. *)
Definition process_with (vars : list (string * string)) (now : Z)
    (graph : Result unit) : Process :=
  {| getenv := fun name =>
       match find (fun kv => String.eqb name (fst kv)) vars with
       | Some kv => Some (snd kv)
       | None => None
       end;
     account_address := fun _ => Ok "0xA11CE";
     from_key_none := Exc (TypeError "Cannot convert None to bytes");
     time_time := now;
     build_graph := graph;
     py_int := fun s =>
       if String.eqb s "30" then Ok 30
       else if String.eqb s "5" then Ok 5
       else Raise (Exc (OtherError "invalid literal for int() with base 10")) |}.

(** ** Notions used to state further properties *)

Definition caught_or_raised (env : Env) (r : Result json) (k : json -> Result json)
  : Result string :=
  match r with
  | Ok v =>
      match k v with
      | Ok out => Ok (json_dumps env out)
      | Raise (Exc e) => Ok (json_dumps env (error_payload e))
      | Raise (Sig s) => Raise (Sig s)
      end
  | Raise (Exc e) => Ok (json_dumps env (error_payload e))
  | Raise (Sig s) => Raise (Sig s)
  end.

(** The requests a run of calls posts, first to last. *)
Fixpoint run_requests (self : BabylonA2AClient)
    (calls : list (string * option dict)) : list HttpRequest :=
  match calls with
  | [] => []
  | (method, params) :: rest =>
      call_request self method params
        :: run_requests (set_message_id (message_id self + 1) self) rest
  end.

(** Requests that carry the ids from the counter of [self] on, and its
    identity. *)
Definition in_sequence (self : BabylonA2AClient) (reqs : list HttpRequest)
  : Prop :=
  request_ids reqs = ids_from (message_id self) (List.length reqs) /\
  Forall (fun req => headers req = call_headers self /\ url req = http_url self)
         reqs.

Definition bumped (self : BabylonA2AClient) (n : nat) : BabylonA2AClient :=
  set_message_id (message_id self + Z.of_nat n) self.

(** What one tool invocation does to a world with the client in place. *)
Definition tool_step (self : BabylonA2AClient) (w w' : World)
    (reqs : list HttpRequest) : Prop :=
  posts_of (trace w') = (posts_of (trace w) ++ reqs)%list /\
  in_sequence self reqs /\
  a2a_client w' = Some (bumped self (List.length reqs)) /\
  ((List.length (action_memory w) <= 20)%nat ->
   (List.length (action_memory w') <= 20)%nat).

Definition sleeps_of (tr : list Event) : nat :=
  List.length (filter (fun ev => match ev with EvSleep _ => true | _ => false end) tr).

(** A surrounding whose graph always gives the same decision and in which
    the sleep that follows [k] completed sleeps is cut short by [s]. *)
Definition interrupting (s : signal) (k : nat) (decision : Result string) : Env :=
  {| post := post (scripted [] decision);
     status_message := status_message (scripted [] decision);
     now_isoformat := now_isoformat (scripted [] decision);
     py_repr := render;
     str_upper := upper_ascii;
     json_dumps := render;
     graph_ainvoke := fun _ _ w => (decision, w);
     asyncio_sleep := fun tr _ =>
       if (sleeps_of tr =? k)%nat then Some s else None |}.

Definition is_close (ev : Event) : bool :=
  match ev with
  | EvClose => true
  | _ => false
  end.

Definition installed (w : World) (client : BabylonA2AClient) : World :=
  {| action_memory := action_memory w;
     a2a_client := Some client;
     trace := trace w |}.

(** The client [main] builds for an identity. *)
Definition main_client (proc : Process) (identity : Identity.t)
  : BabylonA2AClient :=
  client_init
    (getenv_default proc "BABYLON_A2A_URL" "http://localhost:3000/api/a2a")
    (Identity.address identity) (Identity.tokenId identity)
    (getenv_default proc "AGENT0_PRIVATE_KEY" "").

(** The graph touches the world through the five tools only. *)
Definition graph_uses_tools (env : Env) : Prop :=
  forall prompt session w,
  exists ts, snd (graph_ainvoke env prompt session w) = invoke_all env ts w.

(** A scripted surrounding whose graph invokes the tools of a plan in
    every pass and then gives its decision. *)
Definition planned (script : list PostOutcome) (plan : list ToolCall)
    (decision : Result string) : Env :=
  {| post := post (scripted script decision);
     status_message := status_message (scripted script decision);
     now_isoformat := now_isoformat (scripted script decision);
     py_repr := render;
     str_upper := upper_ascii;
     json_dumps := render;
     graph_ainvoke := fun _ _ w =>
       (decision, invoke_all (scripted script decision) plan w);
     asyncio_sleep := fun _ _ => None |}.

(** * Properties *)

(** ** Sequences and strings *)

Lemma last_n_length {A : Type} (n : nat) (l : list A) :
  List.length (last_n n l) = Nat.min n (List.length l).
Proof. unfold last_n. rewrite length_skipn. lia. Qed.

Lemma last_n_suffix {A : Type} (n : nat) (l : list A) :
  exists older, l = (older ++ last_n n l)%list.
Proof.
  exists (firstn (List.length l - n) l). unfold last_n.
  symmetry. apply firstn_skipn.
Qed.

Lemma last_n_all {A : Type} (n : nat) (l : list A) :
  (List.length l <= n)%nat -> last_n n l = l.
Proof.
  intros H. unfold last_n.
  replace (List.length l - n)%nat with O by lia. reflexivity.
Qed.

Lemma last_n_app_full {A : Type} (n : nat) (l l' : list A) :
  last_n n (last_n n l ++ l')%list = last_n n (l ++ l')%list.
Proof.
  unfold last_n. rewrite !length_app, length_skipn.
  set (k := (List.length l - n)%nat).
  rewrite (skipn_app _ l l').
  rewrite (skipn_app _ (skipn k l) l'), length_skipn, skipn_skipn.
  f_equal; f_equal; lia.
Qed.

Lemma last_n_drop_head {A : Type} (n : nat) (x : A) (l : list A) :
  List.length l = n -> last_n n (x :: l) = l.
Proof.
  intros H. unfold last_n. cbn [List.length].
  replace (S (List.length l) - n)%nat with 1%nat by lia. reflexivity.
Qed.

Lemma str_slice_to_length (n : nat) (s : string) :
  (String.length (str_slice_to n s) <= n)%nat.
Proof.
  revert s. induction n as [|n IH]; intros [|c s]; cbn; try lia.
  specialize (IH s). lia.
Qed.

Lemma str_slice_to_prefix (n : nat) (s : string) :
  exists rest, s = str_slice_to n s ++ rest.
Proof.
  revert s. induction n as [|n IH]; intros s.
  - exists s. reflexivity.
  - destruct s as [|c s].
    + exists EmptyString. reflexivity.
    + destruct (IH s) as [rest E]. exists rest. cbn. now rewrite <- E.
Qed.

Lemma str_slice_to_short (n : nat) (s : string) :
  (String.length s <= n)%nat -> str_slice_to n s = s.
Proof.
  revert s. induction n as [|n IH]; intros [|c s] H; cbn in *; try reflexivity.
  - lia.
  - f_equal. apply IH. lia.
Qed.

Lemma str_slice_to_exact (n : nat) (s : string) :
  (n <= String.length s)%nat -> String.length (str_slice_to n s) = n.
Proof.
  revert s. induction n as [|n IH]; intros [|c s] H; cbn in *; try lia.
  rewrite IH; lia.
Qed.

Lemma string_app_assoc (a b c : string) : (a ++ b) ++ c = a ++ (b ++ c).
Proof. induction a as [|x a IH]; cbn; [reflexivity | now rewrite IH]. Qed.

Lemma string_app_nil_r (a : string) : a ++ "" = a.
Proof. induction a as [|x a IH]; cbn; [reflexivity | now rewrite IH]. Qed.

Lemma occurs_in_middle (a sub b : string) : occurs_in sub (a ++ sub ++ b).
Proof. exists a, b. reflexivity. Qed.

Lemma occurs_in_app_l (sub a b : string) :
  occurs_in sub a -> occurs_in sub (a ++ b).
Proof.
  intros (p & q & ->). exists p, (q ++ b).
  now rewrite !string_app_assoc.
Qed.

Lemma occurs_in_app_r (sub a b : string) :
  occurs_in sub b -> occurs_in sub (a ++ b).
Proof.
  intros (p & q & ->). exists (a ++ p), q.
  now rewrite !string_app_assoc.
Qed.

Lemma count_char_app (c : ascii) (a b : string) :
  count_char c (a ++ b) = (count_char c a + count_char c b)%nat.
Proof. induction a as [|x a IH]; cbn; [reflexivity | rewrite IH; lia]. Qed.

Lemma count_char_slice (c : ascii) (n : nat) (s : string) :
  (count_char c (str_slice_to n s) <= count_char c s)%nat.
Proof.
  revert s. induction n as [|n IH]; intros [|x s]; cbn; try lia.
  specialize (IH s). lia.
Qed.

Lemma count_char_join_nl (parts : list string) :
  parts <> [] ->
  Forall (fun p => count_char (ascii_of_nat 10) p = O) parts ->
  count_char (ascii_of_nat 10) (join nl parts) = (List.length parts - 1)%nat.
Proof.
  induction parts as [|p rest IH]; intros Hne Hall; [congruence|].
  inversion Hall as [|? ? Hp Hrest]; subst.
  destruct rest as [|q rest'].
  - cbn. exact Hp.
  - change (join nl (p :: q :: rest')) with (p ++ nl ++ join nl (q :: rest')).
    rewrite !count_char_app, Hp, IH by (congruence || assumption).
    cbn. lia.
Qed.

(** ** Action memory *)

Lemma append_bounded_last_n (e : MemoryEntry) (log : list MemoryEntry) :
  (List.length log <= 20)%nat ->
  append_bounded e log = last_n 20 (log ++ [e])%list.
Proof.
  intros H. unfold append_bounded.
  destruct (Nat.ltb_spec 20 (List.length (log ++ [e])%list)) as [Hgt | Hle].
  - rewrite length_app in Hgt. cbn in Hgt.
    destruct log as [|x log']; cbn in H, Hgt; [lia|].
    rewrite <- app_comm_cons. cbn [tl].
    symmetry. apply last_n_drop_head. rewrite length_app. cbn. lia.
  - symmetry. apply last_n_all. exact Hle.
Qed.

Lemma append_bounded_evicts (e x : MemoryEntry) (log : list MemoryEntry) :
  List.length (x :: log) = 20%nat ->
  append_bounded e (x :: log) = (log ++ [e])%list.
Proof.
  intros H. rewrite append_bounded_last_n by lia.
  apply (last_n_drop_head x (log ++ [e])%list).
  rewrite length_app. cbn in *. lia.
Qed.

Lemma append_bounded_room (e : MemoryEntry) (log : list MemoryEntry) :
  (List.length log < 20)%nat -> append_bounded e log = (log ++ [e])%list.
Proof.
  intros H. rewrite append_bounded_last_n by lia.
  apply last_n_all. rewrite length_app. cbn. lia.
Qed.

Lemma add_to_memory_full (env : Env) (w : World) (x : MemoryEntry)
    (rest : list MemoryEntry) (a : string) (r : json) :
  action_memory w = x :: rest ->
  List.length (x :: rest) = 20%nat ->
  exists e,
    label e = (a, r) /\
    action_memory (snd (add_to_memory env a r w)) = (rest ++ [e])%list.
Proof.
  intros Hw H20.
  exists {| action := a; result := r;
            timestamp := now_isoformat env (trace w) |}.
  split; [reflexivity|].
  cbn. rewrite Hw. apply append_bounded_evicts. exact H20.
Qed.

(** C3. Whatever run of [add_to_memory] calls is made on a log of at most
    20 entries (the empty log the module starts with, in particular), every
    call returns, and the log afterwards is the newest 20 of all entries
    ever appended, in insertion order: it never holds more than 20, and an
    append to a full log evicts exactly its oldest entry. *)
Theorem C3_action_memory_bounded_fifo
    (env : Env) (ops : list (string * json)) (w : World) :
  (List.length (action_memory w) <= 20)%nat ->
  exists (w' : World) (appended : list MemoryEntry),
    add_all_to_memory env ops w = (Ok tt, w') /\
    map label appended = ops /\
    action_memory w' = last_n 20 (action_memory w ++ appended)%list /\
    (List.length (action_memory w') <= 20)%nat /\
    (forall x rest, action_memory w = x :: rest ->
       List.length (x :: rest) = 20%nat ->
       forall a r, exists e,
         label e = (a, r) /\
         action_memory (snd (add_to_memory env a r w)) = (rest ++ [e])%list).
Proof.
  revert w. induction ops as [|[a r] ops IH]; intros w Hlen.
  - exists w, []. cbn. rewrite app_nil_r, last_n_all by exact Hlen.
    repeat split; try assumption.
    intros x rest Hw H20 a r. eapply add_to_memory_full; eassumption.
  - set (e := {| action := a; result := r;
                 timestamp := now_isoformat env (trace w) |}).
    set (w1 := {| action_memory := append_bounded e (action_memory w);
                  a2a_client := a2a_client w;
                  trace := (trace w ++ [EvClock])%list |}).
    assert (Hmem1 : action_memory w1 = last_n 20 (action_memory w ++ [e])%list)
      by (apply append_bounded_last_n; exact Hlen).
    assert (Hlen1 : (List.length (action_memory w1) <= 20)%nat)
      by (rewrite Hmem1, last_n_length; lia).
    destruct (IH w1 Hlen1) as (w' & es & Hrun & Hlab & Hmem & Hle & _).
    exists w', (e :: es). repeat split.
    + cbn. unfold bind, add_to_memory. fold e. fold w1. exact Hrun.
    + cbn. now rewrite Hlab.
    + rewrite Hmem, Hmem1, last_n_app_full, <- app_assoc. reflexivity.
    + exact Hle.
    + intros x rest Hw H20 a' r'. eapply add_to_memory_full; eassumption.
Qed.

Lemma C3_action_memory_bounded_fifo_witness :
  (List.length (action_memory empty_world) <= 20)%nat /\
  exists (w' : World) (appended : list MemoryEntry),
    add_all_to_memory (scripted [] (Ok "")) twenty_one_posts empty_world
      = (Ok tt, w') /\
    map label appended = twenty_one_posts /\
    action_memory w' = last_n 20 (action_memory empty_world ++ appended)%list /\
    (List.length (action_memory w') <= 20)%nat /\
    (forall x rest, action_memory empty_world = x :: rest ->
       List.length (x :: rest) = 20%nat ->
       forall a r, exists e,
         label e = (a, r) /\
         action_memory (snd (add_to_memory (scripted [] (Ok "")) a r empty_world))
           = (rest ++ [e])%list).
Proof.
  split; [cbn; lia|].
  apply (@C3_action_memory_bounded_fifo
           (scripted [] (Ok "")) twenty_one_posts empty_world).
  cbn; lia.
Defined.

(** The 21st append on the module's empty log drops entry 1 and keeps
    entries 2..21 in order. *)
Example twenty_one_posts_keep_newest :
  map result
    (action_memory
       (snd (add_all_to_memory (scripted [] (Ok "")) twenty_one_posts
               empty_world)))
  = map (fun n => JInt (Z.of_nat n)) (seq 2 20).
Proof. vm_compute. reflexivity. Qed.

Lemma format_entry_one_line (env : Env) (a : MemoryEntry) :
  one_line_entry env a -> one_line (format_entry env a).
Proof.
  intros (Ht & Ha & Hr). unfold one_line, format_entry in *.
  rewrite !count_char_app, Ht, Ha.
  pose proof (count_char_slice (ascii_of_nat 10) 80 (py_str env (result a))).
  change (count_char (ascii_of_nat 10) "[") with O.
  change (count_char (ascii_of_nat 10) "] ") with O.
  change (count_char (ascii_of_nat 10) ": ") with O.
  lia.
Qed.

Lemma memory_summary_nonempty (env : Env) (log : list MemoryEntry) :
  log <> [] ->
  memory_summary env log = join nl (map (format_entry env) (last_n 5 log)).
Proof. destruct log; [congruence | reflexivity]. Qed.

(** C9. [get_memory_summary] leaves the world alone and returns the fixed
    sentinel on an empty log; on a non-empty log it returns the last
    min(5, size) entries, oldest of them first, each rendered as
    "[timestamp] action: " followed by the first 80 characters at most of
    the result's text, with one line break between two entries.  After one
    recorded entry the text is that entry's rendering alone, in which its
    action and timestamp occur; the text has as many lines as entries
    rendered whenever their parts hold no line break themselves. *)
Theorem C9_get_memory_summary (env : Env) :
  (forall w, get_memory_summary env w
             = (Ok (memory_summary env (action_memory w)), w)) /\
  memory_summary env [] = "No recent actions." /\
  (forall log, log <> [] ->
     memory_summary env log = join nl (map (format_entry env) (last_n 5 log)) /\
     List.length (last_n 5 log) = Nat.min 5 (List.length log) /\
     (exists older, log = (older ++ last_n 5 log)%list)) /\
  (forall a,
     format_entry env a
       = "[" ++ timestamp a ++ "] " ++ action a ++ ": "
             ++ str_slice_to 80 (py_str env (result a)) /\
     (String.length (str_slice_to 80 (py_str env (result a))) <= 80)%nat /\
     (exists rest,
        py_str env (result a) = str_slice_to 80 (py_str env (result a)) ++ rest)) /\
  (forall a,
     memory_summary env [a] = format_entry env a /\
     occurs_in (action a) (memory_summary env [a]) /\
     occurs_in (timestamp a) (memory_summary env [a])) /\
  (forall log, log <> [] -> Forall (one_line_entry env) log ->
     line_count (memory_summary env log) = Nat.min 5 (List.length log)).
Proof.
  repeat split.
  - now apply memory_summary_nonempty.
  - apply last_n_length.
  - apply last_n_suffix.
  - apply str_slice_to_length.
  - apply str_slice_to_prefix.
  - change (memory_summary env [a]) with (format_entry env a).
    unfold format_entry.
    apply occurs_in_app_r, occurs_in_app_r, occurs_in_app_r.
    exists "", (": " ++ str_slice_to 80 (py_str env (result a))). reflexivity.
  - change (memory_summary env [a]) with (format_entry env a).
    unfold format_entry.
    apply occurs_in_app_r. exists "", ("] " ++ action a ++ ": "
      ++ str_slice_to 80 (py_str env (result a))). reflexivity.
  - intros log Hne Hall.
    rewrite memory_summary_nonempty by exact Hne.
    unfold line_count. rewrite count_char_join_nl.
    + rewrite length_map, last_n_length.
      destruct log; [congruence | cbn; lia].
    + intros E. apply (f_equal (@List.length _)) in E.
      rewrite length_map, last_n_length in E.
      destruct log; [congruence | cbn in E; lia].
    + apply Forall_map. destruct (last_n_suffix 5 log) as [older E].
      rewrite E in Hall. apply Forall_app in Hall as [_ Hrecent].
      revert Hrecent. apply Forall_impl. intros a. apply format_entry_one_line.
Qed.

Lemma C9_get_memory_summary_witness :
  let env := scripted [] (Ok "") in
  let log := [ {| action := "BUY_YES";
                  result := JObj [("ok", JBool true)];
                  timestamp := "2025-01-01T00:00:00.1" |} ] in
  log <> [] /\ Forall (one_line_entry env) log /\
  line_count (memory_summary env log) = Nat.min 5 (List.length log) /\
  memory_summary env log = "[2025-01-01T00:00:00.1] BUY_YES: {'ok': true}".
Proof.
  intros env log.
  assert (Hne : log <> []) by discriminate.
  assert (Hall : Forall (one_line_entry env) log)
    by (repeat constructor; reflexivity).
  destruct (C9_get_memory_summary env) as (_ & _ & _ & _ & _ & Hlines).
  exact (conj Hne (conj Hall (conj (Hlines log Hne Hall) eq_refl))).
Defined.

(** ** The client *)

Lemma call_eq (env : Env) (method : string) (params : option dict)
    (self : BabylonA2AClient) (tr : list Event) :
  call env method params (self, tr)
  = (call_result env (post env tr (call_request self method params)),
     (set_message_id (message_id self + 1) self,
      (tr ++ [EvPost (call_request self method params)])%list)).
Proof.
  destruct self as [u a t k mid aid].
  unfold call, bind, next_request_id, client_post, call_request, call_result,
    decode_body, raise_for_status, lift, raise, ret, set_message_id, call_headers.
  cbn [http_url address token_id private_key message_id agent_id fst snd].
  destruct (post env tr _) as [e | status decoded]; [reflexivity|].
  cbn [fst snd].
  destruct (is_success status); [|reflexivity].
  destruct decoded as [result | e]; [|reflexivity].
  destruct (py_contains "error" result) as [[|] | e]; try reflexivity.
  destruct (py_getitem result "error") as [err | e]; [|reflexivity].
  destruct (py_getitem err "message"); reflexivity.
Qed.

Lemma is_success_2xx (status : Z) :
  is_success status = true <-> 200 <= status <= 299.
Proof. unfold is_success. rewrite andb_true_iff, !Z.leb_le. tauto. Qed.

Lemma is_success_not_2xx (status : Z) :
  is_success status = false <-> ~ (200 <= status <= 299).
Proof.
  rewrite <- is_success_2xx. destruct (is_success status); split;
    congruence || (intros H; exfalso; now apply H).
Qed.

Lemma py_getitem_raises_exception (v : json) (k : string) (e : exn) :
  py_getitem v k = Raise e -> exists e', e = Exc e'.
Proof.
  destruct v; cbn; try (intros [= <-]; eexists; reflexivity).
  destruct (dict_get k kvs); [discriminate|].
  intros [= <-]; eexists; reflexivity.
Qed.

Lemma decode_body_error_field (env : Env) (body : json) :
  has_field "error" body = true ->
  exists e, decode_body env body = Raise (Exc e).
Proof.
  destruct body as [| | | | |xs|kvs]; try discriminate.
  unfold decode_body. cbn [has_field py_contains py_getitem].
  destruct (dict_get "error" kvs) as [err|]; [intros _ | discriminate].
  destruct (py_getitem err "message") as [msg | e] eqn:E.
  - eexists; reflexivity.
  - destruct (py_getitem_raises_exception _ _ E) as [e' ->]. now exists e'.
Qed.

Lemma decode_body_neither (env : Env) (body : json) :
  has_field "error" body = false ->
  has_field "result" body = false ->
  exists e, decode_body env body = Raise (Exc e).
Proof.
  unfold decode_body.
  destruct body as [| | | | s|xs|kvs]; cbn [has_field py_contains py_getitem];
    intros Herr Hres; try (eexists; reflexivity).
  - destruct (str_contains "error" s); eexists; reflexivity.
  - destruct (existsb (is_str "error") xs); eexists; reflexivity.
  - destruct (dict_get "error" kvs); [discriminate|].
    destruct (dict_get "result" kvs); [discriminate|].
    eexists; reflexivity.
Qed.

(** C1. A [call] ends in exactly one of four ways, settled in this order
    by the response to its post.  A status outside 200..299 raises the
    HTTP status error.  Otherwise a decoded body with an ['error'] field
    raises; when that field is an object with a ['message'], what is
    raised is [Exception("A2A Error: <message>")], whose text holds the
    remote message (verbatim when it is a string).  A body with neither a
    ['result'] nor an ['error'] field raises as well.  A body with a
    ['result'] field and no ['error'] field makes the call return that
    field's value. *)
Theorem C1_call_outcomes (env : Env) (self : BabylonA2AClient)
    (tr : list Event) (method : string) (params : option dict) :
  let req := call_request self method params in
  let outcome := fst (call env method params (self, tr)) in
  (forall status decoded,
     post env tr req = Response status decoded ->
     ~ (200 <= status <= 299) ->
     outcome = Raise (Exc (HTTPStatusError status (status_message env status)))) /\
  (forall status body,
     post env tr req = Response status (Ok body) ->
     200 <= status <= 299 ->
     (has_field "error" body = true -> exists e, outcome = Raise (Exc e)) /\
     (forall kvs ekvs msg,
        body = JObj kvs ->
        dict_get "error" kvs = Some (JObj ekvs) ->
        dict_get "message" ekvs = Some msg ->
        outcome = Raise (Exc (Exception ("A2A Error: " ++ py_str env msg))) /\
        occurs_in (py_str env msg)
          (str_exception (Exception ("A2A Error: " ++ py_str env msg))) /\
        (forall s, msg = JStr s -> py_str env msg = s)) /\
     (has_field "error" body = false -> has_field "result" body = false ->
      exists e, outcome = Raise (Exc e)) /\
     (forall kvs r,
        body = JObj kvs ->
        dict_get "error" kvs = None ->
        dict_get "result" kvs = Some r ->
        outcome = Ok r)).
Proof.
  intros req outcome. subst outcome. rewrite call_eq. fold req. cbn [fst].
  split.
  - intros status decoded Hpost Hbad. rewrite Hpost. cbn.
    apply is_success_not_2xx in Hbad. now rewrite Hbad.
  - intros status body Hpost Hok. rewrite Hpost. cbn [call_result].
    apply is_success_2xx in Hok. rewrite Hok.
    split; [|split; [|split]].
    + apply decode_body_error_field.
    + intros kvs ekvs msg -> Herr Hmsg. split; [|split].
      * unfold decode_body. cbn. rewrite Herr. cbn. now rewrite Hmsg.
      * cbn [str_exception].
        exists "A2A Error: ", "". now rewrite string_app_nil_r.
      * intros s ->. reflexivity.
    + apply decode_body_neither.
    + intros kvs r -> Herr Hres. unfold decode_body. cbn.
      rewrite Herr. now rewrite Hres.
Qed.

Lemma C1_call_outcomes_witness :
  let env := scripted [Response 200 (Ok (remote_error "Market closed"))] (Ok "") in
  let self := client_init "http://localhost:3000/api/a2a" "0xA11CE" 4242 "k" in
  fst (call env "a2a.getMarketData" (Some []) (self, []))
  = Raise (Exc (Exception "A2A Error: Market closed")).
Proof.
  intros env self.
  destruct (C1_call_outcomes env self [] "a2a.getMarketData" (Some []))
    as (_ & Hbody).
  assert (H2xx : 200 <= 200 <= 299) by lia.
  destruct (Hbody 200 (remote_error "Market closed") eq_refl H2xx)
    as (_ & Hmsg & _).
  exact (proj1 (Hmsg _ _ (JStr "Market closed") eq_refl eq_refl eq_refl)).
Defined.

Lemma set_message_id_same (self : BabylonA2AClient) :
  set_message_id (message_id self) self = self.
Proof. destruct self; reflexivity. Qed.

Lemma set_message_id_twice (j k : Z) (self : BabylonA2AClient) :
  set_message_id k (set_message_id j self) = set_message_id k self.
Proof. reflexivity. Qed.

(** A run of calls on one instance: one post per call, ids counting up
    from the instance's counter, identity fields untouched. *)
Lemma call_all_posts (env : Env) (calls : list (string * option dict))
    (self : BabylonA2AClient) (tr : list Event) :
  exists reqs : list HttpRequest,
    call_all env calls (self, tr)
    = (set_message_id (message_id self + Z.of_nat (List.length calls)) self,
       (tr ++ map EvPost reqs)%list) /\
    List.length reqs = List.length calls /\
    map (envelope_field "id") reqs
    = map (fun i => Some (JInt (message_id self + Z.of_nat i)))
          (seq 0 (List.length calls)) /\
    Forall (fun req => headers req = call_headers self) reqs.
Proof.
  revert self tr. induction calls as [|[method params] rest IH]; intros self tr.
  - exists []. cbn. rewrite Z.add_0_r, set_message_id_same, app_nil_r.
    repeat split. constructor.
  - cbn [call_all]. rewrite call_eq. cbn [snd].
    destruct (IH (set_message_id (message_id self + 1) self)
                 (tr ++ [EvPost (call_request self method params)])%list)
      as (reqs & Hrun & Hlen & Hids & Hhdr).
    exists (call_request self method params :: reqs). repeat split.
    + rewrite Hrun, set_message_id_twice, <- app_assoc. cbn.
      do 2 f_equal. lia.
    + cbn. now rewrite Hlen.
    + cbn [map List.length seq]. f_equal.
      * cbn. now rewrite Z.add_0_r.
      * rewrite Hids, <- seq_shift, map_map. apply map_ext. intros i.
        cbn [message_id set_message_id]. do 2 f_equal. lia.
    + constructor; [reflexivity | exact Hhdr].
Qed.

Lemma JInt_of_nat_injective :
  Finite.Injective (fun n : nat => Some (JInt (Z.of_nat n))).
Proof. intros a b [= H]. lia. Qed.

(** C2. On a freshly constructed client, any run of n calls (whatever
    their methods, parameters and outcomes) makes exactly n posts, and the
    ['id'] fields of their envelopes are 1, 2, ..., n in that order; no id
    occurs twice, and every single call uses the counter's value as its id
    and leaves the counter one higher. *)
Theorem C2_request_ids (env : Env) (http_url address : string) (token_id : Z)
    (private_key : string) (calls : list (string * option dict))
    (tr : list Event) :
  let self := client_init http_url address token_id private_key in
  message_id self = 1 /\
  (exists reqs : list HttpRequest,
     snd (call_all env calls (self, tr)) = (tr ++ map EvPost reqs)%list /\
     List.length reqs = List.length calls /\
     map (envelope_field "id") reqs
     = map (fun n => Some (JInt (Z.of_nat n))) (seq 1 (List.length calls)) /\
     NoDup (map (envelope_field "id") reqs) /\
     message_id (fst (call_all env calls (self, tr)))
     = 1 + Z.of_nat (List.length calls)) /\
  (forall (c : BabylonA2AClient) (t : list Event) method params,
     envelope_field "id" (call_request c method params) = Some (JInt (message_id c)) /\
     snd (snd (call env method params (c, t)))
     = (t ++ [EvPost (call_request c method params)])%list /\
     message_id (fst (snd (call env method params (c, t)))) = message_id c + 1).
Proof.
  intros self. split; [reflexivity|]. split.
  - destruct (call_all_posts env calls self tr) as (reqs & Hrun & Hlen & Hids & _).
    assert (Hids' : map (envelope_field "id") reqs
                    = map (fun n => Some (JInt (Z.of_nat n)))
                          (seq 1 (List.length calls))).
    { rewrite Hids, <- seq_shift, map_map. apply map_ext. intros i.
      cbn [message_id self client_init]. do 2 f_equal. lia. }
    exists reqs. rewrite Hrun. cbn [fst snd]. repeat split; try assumption.
    rewrite Hids'. apply Finite.Injective_map_NoDup.
    + exact JInt_of_nat_injective.
    + apply seq_NoDup.
  - intros c t method params. rewrite call_eq. cbn [fst snd]. repeat split.
Qed.

Example three_calls_use_ids_1_2_3 :
  map (envelope_field "id")
    (posts_of
       (snd (call_all (scripted [Response 500 (Ok JNull)] (Ok ""))
               [("a2a.getBalance", None); ("a2a.getFeed", Some []);
                ("a2a.getMarketData", Some [])]
               (client_init "http://localhost:3000/api/a2a" "0xA11CE" 7 "k", []))))
  = [Some (JInt 1); Some (JInt 2); Some (JInt 3)].
Proof. vm_compute. reflexivity. Qed.

Lemma call_all_identity (env : Env) (calls : list (string * option dict))
    (self : BabylonA2AClient) (tr : list Event) :
  call_headers (fst (call_all env calls (self, tr))) = call_headers self.
Proof.
  destruct (call_all_posts env calls self tr) as (reqs & Hrun & _).
  rewrite Hrun. reflexivity.
Qed.

(** C4. Every call on a client built from an address and a token id,
    whatever calls came before it on that instance, posts a request with
    exactly four headers: [Content-Type: application/json], [x-agent-id]
    equal to "11155111:<token id>", [x-agent-address] equal to the address
    and [x-agent-token-id] equal to the decimal text of the token id. *)
Theorem C4_call_headers (env : Env) (http_url address : string) (token_id : Z)
    (private_key : string) (earlier : list (string * option dict))
    (tr : list Event) (method : string) (params : option dict) :
  let st := call_all env earlier
              (client_init http_url address token_id private_key, tr) in
  exists req : HttpRequest,
    snd (snd (call env method params st)) = (snd st ++ [EvPost req])%list /\
    headers req
    = [ ("Content-Type", "application/json");
        ("x-agent-id", "11155111:" ++ str_int token_id);
        ("x-agent-address", address);
        ("x-agent-token-id", str_int token_id) ] /\
    List.length (headers req) = 4%nat.
Proof.
  intros st. destruct st as [self tr'] eqn:Est.
  exists (call_request self method params).
  rewrite call_eq. cbn [snd]. split; [reflexivity|].
  assert (Hh : headers (call_request self method params)
               = call_headers (client_init http_url address token_id private_key)).
  { change (headers (call_request self method params)) with (call_headers self).
    replace self with (fst st) by (subst st; now rewrite Est).
    apply call_all_identity. }
  rewrite Hh. split; reflexivity.
Qed.

Example headers_of_a_call :
  map headers
    (posts_of
       (snd (snd (call (scripted [] (Ok "")) "a2a.getBalance" None
                    (client_init "http://localhost:3000/api/a2a" "0xA11CE" 4242 "k",
                     [])))))
  = [[ ("Content-Type", "application/json");
       ("x-agent-id", "11155111:4242");
       ("x-agent-address", "0xA11CE");
       ("x-agent-token-id", "4242") ]].
Proof. vm_compute. reflexivity. Qed.

(** ** Calls on the global client *)

Lemma a2a_client_call_eq (env : Env) (method : string) (params : option dict)
    (w : World) (self : BabylonA2AClient) :
  a2a_client w = Some self ->
  a2a_client_call env method params w
  = (call_result env (post env (trace w) (call_request self method params)),
     after_call w self (call_request self method params)).
Proof.
  intros Hc. unfold a2a_client_call, on_a2a_client. rewrite Hc, call_eq.
  reflexivity.
Qed.

Lemma a2a_client_call_none (env : Env) (method : string) (params : option dict)
    (w : World) :
  a2a_client w = None ->
  a2a_client_call env method params w
  = (Raise (Exc (AttributeError "'NoneType' object has no attribute 'call'")), w).
Proof.
  intros Hc. unfold a2a_client_call, on_a2a_client. now rewrite Hc.
Qed.

Lemma posts_of_app (a b : list Event) :
  posts_of (a ++ b)%list = (posts_of a ++ posts_of b)%list.
Proof. apply flat_map_app. Qed.

(** ** Handlers *)

(** A [try] whose handler returns a value lets no [Exception] out. *)
Lemma try_except_ret_catches {S A : Type} (m : ME S A) (f : exception -> A)
    (s : S) (e : exception) :
  fst (try_except m (fun e => ret (f e)) s) <> Raise (Exc e).
Proof.
  unfold try_except. destruct (m s) as [[a | [e' | sig]] s']; cbn; discriminate.
Qed.

Lemma try_except_ret_handles {S A : Type} (m : ME S A) (f : exception -> A)
    (s s' : S) (e : exception) :
  m s = (Raise (Exc e), s') ->
  try_except m (fun e => ret (f e)) s = (Ok (f e), s').
Proof. intros H. unfold try_except. now rewrite H. Qed.

Lemma try_except_ok {S A : Type} (m : ME S A) (handler : exception -> ME S A)
    (s s' : S) (a : A) :
  m s = (Ok a, s') -> try_except m handler s = (Ok a, s').
Proof. intros H. unfold try_except. now rewrite H. Qed.

Lemma bind_raise {S A B : Type} (m : ME S A) (k : A -> ME S B) (s s' : S)
    (e : exn) :
  m s = (Raise e, s') -> bind m k s = (Raise e, s').
Proof. intros H. unfold bind. now rewrite H. Qed.

Lemma bind_ok {S A B : Type} (m : ME S A) (k : A -> ME S B) (s s' : S) (a : A) :
  m s = (Ok a, s') -> bind m k s = k a s'.
Proof. intros H. unfold bind. now rewrite H. Qed.

(** ** Tool adapters *)

Ltac caught env :=
  intros;
  apply (@try_except_ret_handles World string _
           (fun e => json_dumps env (error_payload e)));
  apply bind_raise; assumption.

(** C6. No tool adapter lets an [Exception] out: whatever is raised inside
    its [try] is turned into the returned text
    [json.dumps({'error': str(e)})].  In particular a failed underlying
    call makes each adapter return that payload for the call's exception,
    and when the remote side answers [a2a.getMarketData] with an error
    object, [get_markets] returns the payload whose string is
    "A2A Error: " followed by the remote message. *)
Theorem C6_adapters_catch (env : Env) (w : World) :
  ((forall e, fst (get_markets env w) <> Raise (Exc e)) /\
   (forall e, fst (get_portfolio env w) <> Raise (Exc e)) /\
   (forall market_id outcome amount e,
      fst (buy_shares env market_id outcome amount w) <> Raise (Exc e)) /\
   (forall content e, fst (create_post env content w) <> Raise (Exc e)) /\
   (forall limit e, fst (get_feed env limit w) <> Raise (Exc e))) /\
  ((forall e w',
      a2a_client_call env "a2a.getMarketData" (Some []) w = (Raise (Exc e), w') ->
      get_markets env w
      = (Ok (json_dumps env (JObj [("error", JStr (str_exception e))])), w')) /\
   (forall e w',
      a2a_client_call env "a2a.getBalance" (Some []) w = (Raise (Exc e), w') ->
      get_portfolio env w
      = (Ok (json_dumps env (JObj [("error", JStr (str_exception e))])), w')) /\
   (forall market_id outcome amount e w',
      a2a_client_call env "a2a.buyShares"
        (Some [ ("marketId", JStr market_id);
                ("outcome", JStr (str_upper env outcome));
                ("amount", JFloat amount) ]) w = (Raise (Exc e), w') ->
      buy_shares env market_id outcome amount w
      = (Ok (json_dumps env (JObj [("error", JStr (str_exception e))])), w')) /\
   (forall content e w',
      a2a_client_call env "a2a.createPost"
        (Some [ ("content", JStr (str_slice_to 280 content));
                ("type", JStr "post") ]) w = (Raise (Exc e), w') ->
      create_post env content w
      = (Ok (json_dumps env (JObj [("error", JStr (str_exception e))])), w')) /\
   (forall limit e w',
      a2a_client_call env "a2a.getFeed"
        (Some [ ("limit", JInt limit); ("offset", JInt 0) ]) w
      = (Raise (Exc e), w') ->
      get_feed env limit w
      = (Ok (json_dumps env (JObj [("error", JStr (str_exception e))])), w'))) /\
  (forall self status kvs ekvs message,
     a2a_client w = Some self ->
     post env (trace w) (call_request self "a2a.getMarketData" (Some []))
     = Response status (Ok (JObj kvs)) ->
     200 <= status <= 299 ->
     dict_get "error" kvs = Some (JObj ekvs) ->
     dict_get "message" ekvs = Some (JStr message) ->
     fst (get_markets env w)
     = Ok (json_dumps env (JObj [("error", JStr ("A2A Error: " ++ message))])) /\
     occurs_in message ("A2A Error: " ++ message)).
Proof.
  split; [|split].
  - repeat split; intros; apply try_except_ret_catches.
  - repeat split; unfold get_markets, get_portfolio, buy_shares, create_post,
      get_feed; caught env.
  - intros self status kvs ekvs message Hc Hpost Hok Herr Hmsg. split.
    + unfold get_markets.
      rewrite (@try_except_ret_handles World string _
                 (fun e => json_dumps env (error_payload e)) w
                 (after_call w self
                    (call_request self "a2a.getMarketData" (Some [])))
                 (Exception ("A2A Error: " ++ message))); [reflexivity|].
      apply bind_raise. rewrite (a2a_client_call_eq env _ _ w Hc), Hpost.
      cbn [call_result]. apply is_success_2xx in Hok. rewrite Hok.
      unfold decode_body. cbn. rewrite Herr. cbn. rewrite Hmsg. reflexivity.
    + exists "A2A Error: ", "". now rewrite string_app_nil_r.
Qed.

Lemma C6_adapters_catch_witness :
  let env := scripted [Response 200 (Ok (remote_error "Market closed"))] (Ok "") in
  let self := client_init "http://localhost:3000/api/a2a" "0xA11CE" 4242 "k" in
  fst (get_markets env (world_with self))
  = Ok "{'error': 'A2A Error: Market closed'}".
Proof.
  intros env self.
  destruct (C6_adapters_catch env (world_with self)) as (_ & _ & Hremote).
  assert (H2xx : 200 <= 200 <= 299) by lia.
  exact (proj1 (Hremote self 200 _ _ "Market closed" eq_refl eq_refl H2xx
                  eq_refl eq_refl)).
Defined.

Lemma append_bounded_last (e : MemoryEntry) (log : list MemoryEntry) :
  exists kept,
    append_bounded e log = (kept ++ [e])%list /\ (kept = log \/ kept = tl log).
Proof.
  unfold append_bounded.
  destruct (20 <? List.length (log ++ [e])%list)%nat eqn:E.
  - destruct log as [|x log'].
    + cbn in E. discriminate.
    + exists log'. split; [reflexivity | now right].
  - exists log. split; [reflexivity | now left].
Qed.

(** The shape shared by [buy_shares] and [create_post]: one call, the
    result recorded under a label, failures answered with a payload. *)
Lemma recorded_call_eq (env : Env) (method : string) (params : dict)
    (label : string) (w : World) (self : BabylonA2AClient) :
  a2a_client w = Some self ->
  let req := call_request self method (Some params) in
  try_except
    (result <- a2a_client_call env method (Some params) ;;
     add_to_memory env label result ;;;
     ret (json_dumps env result))
    (fun e => ret (json_dumps env (error_payload e))) w
  = match call_result env (post env (trace w) req) with
    | Ok r => (Ok (json_dumps env r), after_record env w self req label r)
    | Raise (Exc e) => (Ok (json_dumps env (error_payload e)), after_call w self req)
    | Raise (Sig s) => (Raise (Sig s), after_call w self req)
    end.
Proof.
  intros Hc req. unfold try_except, bind.
  rewrite (a2a_client_call_eq env method (Some params) w Hc). fold req.
  destruct (call_result env (post env (trace w) req)) as [r | [e | s]];
    reflexivity.
Qed.

Lemma recorded_call_posts (env : Env) (method : string) (params : dict)
    (label : string) (w : World) (self : BabylonA2AClient) :
  a2a_client w = Some self ->
  posts_of (trace (snd
    (try_except
       (result <- a2a_client_call env method (Some params) ;;
        add_to_memory env label result ;;;
        ret (json_dumps env result))
       (fun e => ret (json_dumps env (error_payload e))) w)))
  = (posts_of (trace w) ++ [call_request self method (Some params)])%list.
Proof.
  intros Hc. rewrite (recorded_call_eq env method params label w Hc).
  destruct (call_result env _) as [r | [e | s]]; cbn [snd trace after_record after_call];
    rewrite ?posts_of_app; cbn; now rewrite ?app_nil_r.
Qed.

(** C7. With the client in place, [buy_shares] posts exactly one request,
    an [a2a.buyShares] envelope whose [params.outcome] is the upper-cased
    input.  When that call returns, the adapter returns the dumped result
    and the log gains, as its newest entry, one labelled "BUY_" followed by
    the upper-cased input and holding the result; when the call raises,
    the log is left as it was. *)
Theorem C7_buy_shares (env : Env) (market_id outcome : string) (amount : Z)
    (w : World) (self : BabylonA2AClient) :
  a2a_client w = Some self ->
  let params := [ ("marketId", JStr market_id);
                  ("outcome", JStr (str_upper env outcome));
                  ("amount", JFloat amount) ] in
  let req := call_request self "a2a.buyShares" (Some params) in
  let run := buy_shares env market_id outcome amount w in
  posts_of (trace (snd run)) = (posts_of (trace w) ++ [req])%list /\
  envelope_field "method" req = Some (JStr "a2a.buyShares") /\
  envelope_field "params" req = Some (JObj params) /\
  dict_get "outcome" params = Some (JStr (str_upper env outcome)) /\
  (forall r,
     fst (a2a_client_call env "a2a.buyShares" (Some params) w) = Ok r ->
     let entry := {| action := "BUY_" ++ str_upper env outcome;
                     result := r;
                     timestamp := now_isoformat env (trace (after_call w self req)) |} in
     fst run = Ok (json_dumps env r) /\
     action_memory (snd run) = append_bounded entry (action_memory w) /\
     exists kept,
       action_memory (snd run) = (kept ++ [entry])%list /\
       (kept = action_memory w \/ kept = tl (action_memory w))) /\
  (forall e,
     fst (a2a_client_call env "a2a.buyShares" (Some params) w) = Raise e ->
     action_memory (snd run) = action_memory w).
Proof.
  intros Hc params req run.
  split; [apply (recorded_call_posts env _ _ _ w Hc)|].
  do 3 (split; [reflexivity|]).
  assert (Hrun : run = match call_result env (post env (trace w) req) with
                       | Ok r =>
                           (Ok (json_dumps env r),
                            after_record env w self req
                              ("BUY_" ++ str_upper env outcome) r)
                       | Raise (Exc e) =>
                           (Ok (json_dumps env (error_payload e)),
                            after_call w self req)
                       | Raise (Sig s) => (Raise (Sig s), after_call w self req)
                       end)
    by (apply (recorded_call_eq env "a2a.buyShares" params
                 ("BUY_" ++ str_upper env outcome) w Hc)).
  rewrite Hrun, (a2a_client_call_eq env _ _ w Hc). fold req. cbn [fst].
  split.
  - intros r Hr. rewrite Hr. cbn [fst snd action_memory after_record].
    split; [reflexivity|]. split; [reflexivity|].
    apply append_bounded_last.
  - intros e He. rewrite He. destruct e; reflexivity.
Qed.

Lemma C7_buy_shares_witness :
  let env := scripted [Response 200 (Ok (JObj [("result", bought)]))] (Ok "") in
  let self := client_init "http://localhost:3000/api/a2a" "0xA11CE" 4242 "k" in
  let run := buy_shares env "m1" "yes" 0 (world_with self) in
  a2a_client (world_with self) = Some self /\
  map (envelope_field "params") (posts_of (trace (snd run)))
  = [Some (JObj [ ("marketId", JStr "m1"); ("outcome", JStr "YES");
                  ("amount", JFloat 0) ])] /\
  map action (action_memory (snd run)) = ["BUY_YES"].
Proof.
  intros env self run.
  destruct (@C7_buy_shares env "m1" "yes" 0 (world_with self) self eq_refl)
    as (Hposts & _ & _ & _ & Hok & _).
  destruct (Hok bought eq_refl) as (_ & Hmem & _).
  split; [reflexivity|]. split.
  - subst run. rewrite Hposts. reflexivity.
  - subst run. rewrite Hmem. reflexivity.
Defined.

Example buy_shares_any_letter_case :
  let env := scripted [Response 200 (Ok (JObj [("result", bought)]))] (Ok "") in
  let self := client_init "http://localhost:3000/api/a2a" "0xA11CE" 4242 "k" in
  map (fun outcome =>
         map (envelope_field "params")
           (posts_of (trace (snd (buy_shares env "m1" outcome 0 (world_with self))))))
      ["yes"; "Yes"; "yEs"; "YES"]
  = repeat [Some (JObj [ ("marketId", JStr "m1"); ("outcome", JStr "YES");
                         ("amount", JFloat 0) ])] 4.
Proof. vm_compute. reflexivity. Qed.

(** C8. With the client in place, [create_post] posts exactly one request,
    an [a2a.createPost] envelope whose [params.content] is the first 280
    characters of the input (the whole input when it is no longer than
    that) and whose [params.type] is "post".  When that call returns, the
    adapter returns the dumped result and the log gains, as its newest
    entry, one labelled "CREATE_POST" holding the result; when the call
    raises, the log is left as it was. *)
Theorem C8_create_post (env : Env) (content : string) (w : World)
    (self : BabylonA2AClient) :
  a2a_client w = Some self ->
  let params := [ ("content", JStr (str_slice_to 280 content));
                  ("type", JStr "post") ] in
  let req := call_request self "a2a.createPost" (Some params) in
  let run := create_post env content w in
  posts_of (trace (snd run)) = (posts_of (trace w) ++ [req])%list /\
  envelope_field "method" req = Some (JStr "a2a.createPost") /\
  envelope_field "params" req = Some (JObj params) /\
  dict_get "content" params = Some (JStr (str_slice_to 280 content)) /\
  dict_get "type" params = Some (JStr "post") /\
  ((String.length (str_slice_to 280 content) <= 280)%nat /\
   (exists cut, content = str_slice_to 280 content ++ cut) /\
   ((String.length content <= 280)%nat -> str_slice_to 280 content = content) /\
   ((280 <= String.length content)%nat ->
    String.length (str_slice_to 280 content) = 280%nat)) /\
  (forall r,
     fst (a2a_client_call env "a2a.createPost" (Some params) w) = Ok r ->
     let entry := {| action := "CREATE_POST";
                     result := r;
                     timestamp := now_isoformat env (trace (after_call w self req)) |} in
     fst run = Ok (json_dumps env r) /\
     action_memory (snd run) = append_bounded entry (action_memory w) /\
     exists kept,
       action_memory (snd run) = (kept ++ [entry])%list /\
       (kept = action_memory w \/ kept = tl (action_memory w))) /\
  (forall e,
     fst (a2a_client_call env "a2a.createPost" (Some params) w) = Raise e ->
     action_memory (snd run) = action_memory w).
Proof.
  intros Hc params req run.
  split; [apply (recorded_call_posts env _ _ _ w Hc)|].
  do 4 (split; [reflexivity|]).
  split.
  { repeat split.
    - apply str_slice_to_length.
    - apply str_slice_to_prefix.
    - apply str_slice_to_short.
    - apply str_slice_to_exact. }
  assert (Hrun : run = match call_result env (post env (trace w) req) with
                       | Ok r =>
                           (Ok (json_dumps env r),
                            after_record env w self req "CREATE_POST" r)
                       | Raise (Exc e) =>
                           (Ok (json_dumps env (error_payload e)),
                            after_call w self req)
                       | Raise (Sig s) => (Raise (Sig s), after_call w self req)
                       end)
    by (apply (recorded_call_eq env "a2a.createPost" params "CREATE_POST" w Hc)).
  rewrite Hrun, (a2a_client_call_eq env _ _ w Hc). fold req. cbn [fst].
  split.
  - intros r Hr. rewrite Hr. cbn [fst snd action_memory after_record].
    split; [reflexivity|]. split; [reflexivity|].
    apply append_bounded_last.
  - intros e He. rewrite He. destruct e; reflexivity.
Qed.

Lemma C8_create_post_witness :
  let env := scripted [Response 200 (Ok (JObj [("result", posted)]))] (Ok "") in
  let self := client_init "http://localhost:3000/api/a2a" "0xA11CE" 4242 "k" in
  let run := create_post env (str_repeat "x" 500) (world_with self) in
  a2a_client (world_with self) = Some self /\
  map (envelope_field "params") (posts_of (trace (snd run)))
  = [Some (JObj [ ("content", JStr (str_repeat "x" 280));
                  ("type", JStr "post") ])] /\
  map action (action_memory (snd run)) = ["CREATE_POST"].
Proof.
  intros env self run.
  destruct (@C8_create_post env (str_repeat "x" 500) (world_with self) self eq_refl)
    as (Hposts & _ & _ & _ & _ & _ & Hok & _).
  destruct (Hok posted eq_refl) as (_ & Hmem & _).
  split; [reflexivity|]. split.
  - subst run. rewrite Hposts. vm_compute. reflexivity.
  - subst run. rewrite Hmem. reflexivity.
Defined.

(** ** Portfolio *)

(** C10. When both underlying calls return and the first result is a
    mapping, [get_portfolio] returns the dumped mapping with exactly the
    keys ['balance'] and ['positions']: the first is the ['balance'] field
    of the [a2a.getBalance] result, or the integer 0 when the field is
    missing; the second is the [a2a.getPositions] result.  Whenever the
    first call returns, the second call is posted with [params.userId]
    equal to the client's agent id. *)
Theorem C10_get_portfolio (env : Env) (w : World) (self : BabylonA2AClient) :
  a2a_client w = Some self ->
  let req1 := call_request self "a2a.getBalance" (Some []) in
  let w1 := after_call w self req1 in
  let self1 := set_message_id (message_id self + 1) self in
  let params2 := [("userId", JStr (agent_id self))] in
  let req2 := call_request self1 "a2a.getPositions" (Some params2) in
  let w2 := after_call w1 self1 req2 in
  (forall balance,
     a2a_client_call env "a2a.getBalance" (Some []) w = (Ok balance, w1) ->
     posts_of (trace (snd (get_portfolio env w)))
     = (posts_of (trace w) ++ [req1; req2])%list /\
     envelope_field "method" req2 = Some (JStr "a2a.getPositions") /\
     envelope_field "params" req2 = Some (JObj params2)) /\
  (forall kvs positions,
     a2a_client_call env "a2a.getBalance" (Some []) w = (Ok (JObj kvs), w1) ->
     a2a_client_call env "a2a.getPositions" (Some params2) w1
     = (Ok positions, w2) ->
     let payload :=
       [ ("balance", match dict_get "balance" kvs with
                     | Some b => b
                     | None => JInt 0
                     end);
         ("positions", positions) ] in
     get_portfolio env w = (Ok (json_dumps env (JObj payload)), w2) /\
     dict_keys payload = ["balance"; "positions"]).
Proof.
  intros Hc req1 w1 self1 params2 req2 w2.
  assert (Hc1 : a2a_client w1 = Some self1) by reflexivity.
  assert (Hsecond :
    forall w', a2a_client w' = Some self1 ->
      bind (on_a2a_client "call" (ret tt))
           (fun _ => bind (a2a_client_agent_id)
              (fun user_id =>
                 a2a_client_call env "a2a.getPositions"
                   (Some [("userId", JStr user_id)]))) w'
      = a2a_client_call env "a2a.getPositions" (Some params2) w').
  { intros w' Hw'. unfold bind, on_a2a_client at 1, a2a_client_agent_id,
      on_a2a_client at 1. rewrite Hw'. cbn [ret fst snd a2a_client].
    destruct w' as [mem c tr']. cbn in Hw'. subst c. reflexivity. }
  split.
  - intros balance Hbal. split; [|split; reflexivity].
    unfold get_portfolio, try_except.
    rewrite (bind_ok _ _ _ Hbal).
    unfold bind at 1. rewrite (Hsecond w1 Hc1).
    rewrite (a2a_client_call_eq env _ _ w1 Hc1). fold req2. fold w2.
    assert (Hw2 : posts_of (trace w2) = (posts_of (trace w) ++ [req1; req2])%list).
    { cbn [w2 w1 after_call trace]. rewrite !posts_of_app, <- app_assoc.
      reflexivity. }
    destruct (call_result env _) as [positions | [e | s]]; cbn [snd fst];
      try exact Hw2.
    unfold bind, lift.
    destruct (py_get balance "balance" (JInt 0)) as [b | [e | s]]; exact Hw2.
  - intros kvs positions Hbal Hpos payload. split; [|reflexivity].
    unfold get_portfolio.
    apply try_except_ok.
    rewrite (bind_ok _ _ _ Hbal).
    unfold bind at 1. rewrite (Hsecond w1 Hc1), Hpos.
    reflexivity.
Qed.

Lemma C10_get_portfolio_witness :
  let env := scripted [ Response 200 (Ok (JObj [("result", balance_of_100)]));
                        Response 200 (Ok (JObj [("result", JArr [])])) ]
                      (Ok "") in
  let self := client_init "http://localhost:3000/api/a2a" "0xA11CE" 4242 "k" in
  a2a_client (world_with self) = Some self /\
  fst (get_portfolio env (world_with self))
  = Ok "{'balance': 100, 'positions': []}" /\
  map (envelope_field "params")
      (posts_of (trace (snd (get_portfolio env (world_with self)))))
  = [Some (JObj []); Some (JObj [("userId", JStr "11155111:4242")])].
Proof.
  intros env self.
  destruct (@C10_get_portfolio env (world_with self) self eq_refl)
    as (Hposts & Hok).
  destruct (Hposts balance_of_100 eq_refl) as (Htrace & _).
  destruct (Hok [("balance", JInt 100)] (JArr []) eq_refl eq_refl) as (Hrun & _).
  split; [reflexivity|]. split.
  - rewrite Hrun. reflexivity.
  - rewrite Htrace. reflexivity.
Defined.

Example get_portfolio_defaults_balance :
  let env := scripted [ Response 200 (Ok (JObj [("result", JObj [])]));
                        Response 200 (Ok (JObj [("result", JArr [])])) ]
                      (Ok "") in
  let self := client_init "http://localhost:3000/api/a2a" "0xA11CE" 4242 "k" in
  fst (get_portfolio env (world_with self)) = Ok "{'balance': 0, 'positions': []}".
Proof. vm_compute. reflexivity. Qed.

(** ** The tick loop *)

Lemma extend_extend (w : World) (a b : list Event) :
  extend (extend w a) b = extend w (a ++ b)%list.
Proof. unfold extend. cbn. now rewrite app_assoc. Qed.

Lemma print_eq (line : LogLine) (w : World) :
  print line w = (Ok tt, extend w [EvPrint line]).
Proof. reflexivity. Qed.

Lemma sleep_eq (env : Env) (secs : Z) (w : World) :
  sleep env secs w = (sleep_result env (trace w) secs, extend w [EvSleep secs]).
Proof.
  unfold sleep, sleep_result. destruct (asyncio_sleep env (trace w) secs);
    reflexivity.
Qed.

(** The end of every pass that got past its [try]: announce the sleep,
    sleep, hand back the counter. *)
Lemma tick_tail (env : Env) (tick_interval n : Z) (w : World) :
  (print (Sleeping tick_interval) ;;; sleep env tick_interval ;;; ret n) w
  = (match sleep_result env (trace w ++ [EvPrint (Sleeping tick_interval)])
             tick_interval with
     | Ok _ => Ok n
     | Raise e => Raise e
     end,
     extend w [EvPrint (Sleeping tick_interval); EvSleep tick_interval]).
Proof.
  rewrite (bind_ok _ _ _ (print_eq _ w)).
  unfold bind. rewrite sleep_eq, extend_extend. cbn [trace extend app].
  destruct (sleep_result env _ tick_interval); reflexivity.
Qed.

(** A pass, by what [decide] does after the banner is out. *)
Lemma tick_eq (env : Env) (babylon_agent : BabylonAgent) (session_id : string)
    (tick_interval tick_count : Z) (w w2 : World) (r : Result string) :
  decide env babylon_agent session_id
    (extend w [EvPrint (TickBanner (tick_count + 1))]) = (r, w2) ->
  tick env babylon_agent session_id tick_interval tick_count w
  = match r with
    | Ok decision =>
        (print (Sleeping tick_interval) ;;; sleep env tick_interval ;;;
         ret (tick_count + 1))
          (extend w2 [EvPrint (TickComplete (tick_count + 1)
                                 (str_slice_to 100 decision))])
    | Raise (Exc e) =>
        (print (Sleeping tick_interval) ;;; sleep env tick_interval ;;;
         ret (tick_count + 1))
          (extend w2 [EvPrint (TickFailed (tick_count + 1) (str_exception e))])
    | Raise (Sig s) => (Raise (Sig s), w2)
    end.
Proof.
  intros Hd. unfold tick.
  rewrite (bind_ok _ _ _ (print_eq _ w)).
  unfold bind at 1. unfold try_except. unfold bind at 1. rewrite Hd.
  destruct r as [decision | [e | s]]; reflexivity.
Qed.

Lemma decide_eq (env : Env) (babylon_agent : BabylonAgent) (session_id : string)
    (w : World) :
  decide env babylon_agent session_id w
  = graph_ainvoke env (decide_prompt babylon_agent env w) session_id w.
Proof. reflexivity. Qed.

Section Uninterrupted.

Variable env : Env.
Variable babylon_agent : BabylonAgent.
Variable session_id : string.
Variable tick_interval : Z.

(** No sleep is cut short and the graph run lets no signal out. *)
Hypothesis sleeps_through : forall tr secs, asyncio_sleep env tr secs = None.
Hypothesis no_signal :
  forall prompt session w s, fst (graph_ainvoke env prompt session w) <> Raise (Sig s).

Lemma tick_returns (tick_count : Z) (w : World) :
  exists w', tick env babylon_agent session_id tick_interval tick_count w
             = (Ok (tick_count + 1), w').
Proof.
  destruct (decide env babylon_agent session_id
              (extend w [EvPrint (TickBanner (tick_count + 1))])) as [r w2] eqn:Hd.
  rewrite (tick_eq env babylon_agent session_id tick_interval tick_count w Hd).
  destruct r as [decision | [e | s]].
  - rewrite tick_tail. unfold sleep_result. rewrite sleeps_through.
    eexists; reflexivity.
  - rewrite tick_tail. unfold sleep_result. rewrite sleeps_through.
    eexists; reflexivity.
  - exfalso. rewrite decide_eq in Hd.
    eapply no_signal. rewrite Hd. reflexivity.
Qed.

Lemma while_true_returns (fuel : nat) (tick_count : Z) (w : World) :
  exists w', while_true env fuel babylon_agent session_id tick_interval
               tick_count w
             = (Ok (tick_count + Z.of_nat fuel), w').
Proof.
  revert tick_count w. induction fuel as [|fuel IH]; intros tick_count w.
  - exists w. cbn. now rewrite Z.add_0_r.
  - destruct (tick_returns tick_count w) as [w1 Ht].
    destruct (IH (tick_count + 1) w1) as [w' Hw].
    exists w'. cbn [while_true]. rewrite (bind_ok _ _ _ Ht), Hw.
    do 2 f_equal. lia.
Qed.

Lemma autonomous_loop_keeps_running (fuel : nat) (w : World) :
  exists w', autonomous_loop env fuel babylon_agent session_id tick_interval w
             = (Ok (Running (Z.of_nat fuel)), w').
Proof.
  destruct (while_true_returns fuel 0 w) as [w' Hw].
  exists w'. unfold autonomous_loop, try_except_interrupt.
  rewrite (bind_ok _ _ _ Hw). reflexivity.
Qed.

End Uninterrupted.

(** C5. Take a pass of the loop in which [decide] raises an [Exception].
    The pass prints the failure, announces the sleep and sleeps, with the
    counter one higher; no [Exception] comes out of the pass; unless the
    sleep itself is interrupted the pass hands the new counter on and the
    loop goes into its next pass.  And as long as no interrupt arrives,
    the loop is still running after any number of passes, however many of
    them failed. *)
Theorem C5_failed_tick_does_not_stop_the_loop (env : Env)
    (babylon_agent : BabylonAgent) (session_id : string) (tick_interval : Z) :
  (forall (tick_count : Z) (w w2 : World) (e : exception),
     decide env babylon_agent session_id
       (extend w [EvPrint (TickBanner (tick_count + 1))]) = (Raise (Exc e), w2) ->
     let run := tick env babylon_agent session_id tick_interval tick_count w in
     let reported := [EvPrint (TickFailed (tick_count + 1) (str_exception e));
                      EvPrint (Sleeping tick_interval)] in
     let w3 := extend w2 (reported ++ [EvSleep tick_interval]) in
     snd run = w3 /\
     (forall e', fst run <> Raise (Exc e')) /\
     (asyncio_sleep env (trace w2 ++ reported) tick_interval = None ->
      run = (Ok (tick_count + 1), w3) /\
      forall fuel,
        while_true env (S fuel) babylon_agent session_id tick_interval
          tick_count w
        = while_true env fuel babylon_agent session_id tick_interval
            (tick_count + 1) w3) /\
     (forall s,
        asyncio_sleep env (trace w2 ++ reported) tick_interval = Some s ->
        fst run = Raise (Sig s))) /\
  ((forall tr secs, asyncio_sleep env tr secs = None) ->
   (forall prompt session w s,
      fst (graph_ainvoke env prompt session w) <> Raise (Sig s)) ->
   forall (fuel : nat) (w : World),
   exists w',
     autonomous_loop env fuel babylon_agent session_id tick_interval w
     = (Ok (Running (Z.of_nat fuel)), w')).
Proof.
  split.
  - intros tick_count w w2 e Hd run reported w3.
    assert (Hrun : run
              = (match sleep_result env (trace w2 ++ reported) tick_interval with
                 | Ok _ => Ok (tick_count + 1)
                 | Raise x => Raise x
                 end, w3)).
    { subst run.
      rewrite (tick_eq env babylon_agent session_id tick_interval tick_count w Hd).
      rewrite tick_tail, extend_extend. cbn [trace extend].
      rewrite <- app_assoc. reflexivity. }
    rewrite Hrun. cbn [fst snd]. unfold sleep_result.
    split; [reflexivity|]. split; [|split].
    + intros e'. destruct (asyncio_sleep env _ tick_interval); discriminate.
    + intros Hs. rewrite Hs. split; [reflexivity|].
      intros fuel. cbn [while_true].
      apply bind_ok. fold run. rewrite Hrun. unfold sleep_result. now rewrite Hs.
    + intros s Hs. now rewrite Hs.
  - intros Hsleep Hsig fuel w.
    now apply autonomous_loop_keeps_running.
Qed.

Lemma C5_failed_tick_does_not_stop_the_loop_witness :
  let env := scripted [] (Raise (Exc model_down)) in
  let agent := {| strategy := "balanced" |} in
  tick env agent "11155111:4242" 30 0 empty_world
  = (Ok 1, extend empty_world
             [ EvPrint (TickBanner 1);
               EvPrint (TickFailed 1 "model unavailable");
               EvPrint (Sleeping 30);
               EvSleep 30 ]) /\
  exists w', autonomous_loop env 3 agent "11155111:4242" 30 empty_world
             = (Ok (Running 3), w').
Proof.
  intros env agent.
  destruct (C5_failed_tick_does_not_stop_the_loop env agent "11155111:4242" 30)
    as (Hpass & Hloop).
  split.
  - exact (proj1 (proj1 (proj2 (proj2 (Hpass 0 empty_world _ model_down eq_refl)))
                    eq_refl)).
  - apply (Hloop (fun _ _ => eq_refl)).
    intros prompt session w s; discriminate.
Defined.

Example three_failed_ticks_three_sleeps :
  let env := scripted [] (Raise (Exc model_down)) in
  let run := autonomous_loop env 3 {| strategy := "balanced" |} "11155111:4242" 30
               empty_world in
  fst run = Ok (Running 3) /\
  filter (fun ev => match ev with EvSleep _ => true | _ => false end)
         (trace (snd run))
  = [EvSleep 30; EvSleep 30; EvSleep 30].
Proof. vm_compute. split; reflexivity. Qed.

(** ** The adapters, by the outcome of their calls *)

Lemma get_markets_eq (env : Env) (w : World) (self : BabylonA2AClient) :
  a2a_client w = Some self ->
  let req := call_request self "a2a.getMarketData" (Some []) in
  get_markets env w
  = (caught_or_raised env (call_result env (post env (trace w) req)) Ok,
     after_call w self req).
Proof.
  intros Hc req. unfold get_markets, try_except, bind.
  rewrite (a2a_client_call_eq env _ _ w Hc). fold req.
  destruct (call_result env (post env (trace w) req)) as [r | [e | s]];
    reflexivity.
Qed.

Lemma get_feed_eq (env : Env) (limit : Z) (w : World) (self : BabylonA2AClient) :
  a2a_client w = Some self ->
  let req := call_request self "a2a.getFeed"
               (Some [("limit", JInt limit); ("offset", JInt 0)]) in
  get_feed env limit w
  = (caught_or_raised env (call_result env (post env (trace w) req))
       (fun r => py_get r "posts" (JArr [])),
     after_call w self req).
Proof.
  intros Hc req. unfold get_feed, try_except, bind.
  rewrite (a2a_client_call_eq env _ _ w Hc). fold req.
  destruct (call_result env (post env (trace w) req)) as [r | [e | s]];
    try reflexivity.
  unfold lift, caught_or_raised.
  destruct (py_get r "posts" (JArr [])) as [posts | [e | s]]; reflexivity.
Qed.

(** The second call of [get_portfolio], the way the source spells it. *)
Lemma get_positions_eq (env : Env) (w : World) (self : BabylonA2AClient) :
  a2a_client w = Some self ->
  (on_a2a_client "call" (ret tt) ;;;
   user_id <- a2a_client_agent_id ;;
   a2a_client_call env "a2a.getPositions" (Some [("userId", JStr user_id)])) w
  = a2a_client_call env "a2a.getPositions"
      (Some [("userId", JStr (agent_id self))]) w.
Proof.
  intros Hc. unfold bind, on_a2a_client at 1, a2a_client_agent_id,
    on_a2a_client at 1. rewrite Hc. cbn [ret fst snd a2a_client].
  destruct w as [mem c tr]. cbn in Hc. subst c. reflexivity.
Qed.

Lemma get_portfolio_eq (env : Env) (w : World) (self : BabylonA2AClient) :
  a2a_client w = Some self ->
  let req1 := call_request self "a2a.getBalance" (Some []) in
  let w1 := after_call w self req1 in
  let self1 := set_message_id (message_id self + 1) self in
  let req2 := call_request self1 "a2a.getPositions"
                (Some [("userId", JStr (agent_id self))]) in
  let w2 := after_call w1 self1 req2 in
  get_portfolio env w
  = match call_result env (post env (trace w) req1) with
    | Ok balance =>
        (caught_or_raised env (call_result env (post env (trace w1) req2))
           (fun positions =>
              match py_get balance "balance" (JInt 0) with
              | Ok bal => Ok (JObj [("balance", bal); ("positions", positions)])
              | Raise e => Raise e
              end),
         w2)
    | Raise (Exc e) => (Ok (json_dumps env (error_payload e)), w1)
    | Raise (Sig s) => (Raise (Sig s), w1)
    end.
Proof.
  intros Hc req1 w1 self1 req2 w2.
  assert (Hc1 : a2a_client w1 = Some self1) by reflexivity.
  unfold get_portfolio, try_except. unfold bind at 1.
  rewrite (a2a_client_call_eq env _ _ w Hc). fold req1. fold w1.
  destruct (call_result env (post env (trace w) req1)) as [balance | [e | s]];
    try reflexivity.
  unfold bind at 1. rewrite (get_positions_eq env w1 Hc1).
  rewrite (a2a_client_call_eq env _ _ w1 Hc1).
  change (agent_id self1) with (agent_id self). fold req2. fold w2.
  destruct (call_result env (post env (trace w1) req2)) as [positions | [e | s]];
    try reflexivity.
  unfold bind, lift, caught_or_raised.
  destruct (py_get balance "balance" (JInt 0)) as [bal | [e | s]]; reflexivity.
Qed.

Lemma adapter_without_client (env : Env) (k : json -> M string) (method : string)
    (params : option dict) (w : World) :
  a2a_client w = None ->
  try_except (result <- a2a_client_call env method params ;; k result)
    (fun e => ret (json_dumps env (error_payload e))) w
  = (Ok (json_dumps env
           (JObj [("error",
                   JStr "'NoneType' object has no attribute 'call'")])), w).
Proof.
  intros Hc. unfold try_except, bind.
  now rewrite (a2a_client_call_none env method params w Hc).
Qed.

Lemma py_get_not_mapping (v : json) (k : string) (default : json) :
  (forall kvs, v <> JObj kvs) ->
  py_get v k default
  = Raise (Exc (AttributeError
                  ("'" ++ type_name v ++ "' object has no attribute 'get'"))).
Proof. intros H. destruct v; try reflexivity. now destruct (H kvs). Qed.

(** X1. With the client in place, [get_feed] posts exactly one request, an
    [a2a.getFeed] envelope with the given limit and offset 0, and changes
    nothing else.  When the call returns a mapping the adapter returns its
    dumped ['posts'] field, or the dumped empty list when the field is
    missing; when the call returns anything but a mapping the adapter
    returns the payload of the [AttributeError] on [get]. *)
Theorem X1_get_feed (env : Env) (limit : Z) (w : World)
    (self : BabylonA2AClient) :
  a2a_client w = Some self ->
  let params := [("limit", JInt limit); ("offset", JInt 0)] in
  let req := call_request self "a2a.getFeed" (Some params) in
  let run := get_feed env limit w in
  snd run = after_call w self req /\
  envelope_field "method" req = Some (JStr "a2a.getFeed") /\
  envelope_field "params" req = Some (JObj params) /\
  (forall kvs,
     fst (a2a_client_call env "a2a.getFeed" (Some params) w) = Ok (JObj kvs) ->
     fst run = Ok (json_dumps env (match dict_get "posts" kvs with
                                   | Some posts => posts
                                   | None => JArr []
                                   end))) /\
  (forall r,
     fst (a2a_client_call env "a2a.getFeed" (Some params) w) = Ok r ->
     (forall kvs, r <> JObj kvs) ->
     fst run
     = Ok (json_dumps env
             (JObj [("error",
                     JStr ("'" ++ type_name r
                               ++ "' object has no attribute 'get'"))]))).
Proof.
  intros Hc params req run. subst run.
  rewrite (get_feed_eq env limit w Hc), (a2a_client_call_eq env _ _ w Hc).
  fold params. fold req. cbn [fst snd].
  split; [reflexivity|]. do 2 (split; [reflexivity|]). split.
  - intros kvs Hr. rewrite Hr. reflexivity.
  - intros r Hr Hnot. rewrite Hr. unfold caught_or_raised.
    now rewrite (@py_get_not_mapping r "posts" (JArr []) Hnot).
Qed.

Lemma X1_get_feed_witness :
  let env := scripted
               [Response 200 (Ok (JObj [("result",
                  JObj [("posts", JArr [JStr "gm"]); ("total", JInt 1)])]))]
               (Ok "") in
  let self := client_init "http://localhost:3000/api/a2a" "0xA11CE" 4242 "k" in
  a2a_client (world_with self) = Some self /\
  fst (get_feed env 20 (world_with self)) = Ok "['gm']".
Proof.
  intros env self. split; [reflexivity|].
  destruct (@X1_get_feed env 20 (world_with self) self eq_refl)
    as (_ & _ & _ & Hposts & _).
  exact (Hposts [("posts", JArr [JStr "gm"]); ("total", JInt 1)] eq_refl).
Defined.

(** X2. The three reading adapters never write to the action memory:
    whatever the world, the client and the remote side do, [get_markets],
    [get_portfolio] and [get_feed] leave [action_memory] as it was. *)
Theorem X2_reading_adapters_keep_memory (env : Env) (w : World) :
  action_memory (snd (get_markets env w)) = action_memory w /\
  action_memory (snd (get_portfolio env w)) = action_memory w /\
  (forall limit, action_memory (snd (get_feed env limit w)) = action_memory w).
Proof.
  destruct (a2a_client w) as [self|] eqn:Hc.
  - repeat split.
    + now rewrite (get_markets_eq env w Hc).
    + rewrite (get_portfolio_eq env w Hc).
      destruct (call_result env _) as [balance | [e | s]]; reflexivity.
    + intros limit. now rewrite (get_feed_eq env limit w Hc).
  - repeat split; intros; unfold get_markets, get_portfolio, get_feed;
      now rewrite (adapter_without_client env _ _ _ w Hc).
Qed.

(** X3. With the client in place, [get_markets] posts exactly one request,
    an [a2a.getMarketData] envelope with empty params, changes nothing
    else, and hands back the dumped result of the call as it is, whatever
    kind of value it is. *)
Theorem X3_get_markets_passthrough (env : Env) (w : World)
    (self : BabylonA2AClient) :
  a2a_client w = Some self ->
  let req := call_request self "a2a.getMarketData" (Some []) in
  let run := get_markets env w in
  snd run = after_call w self req /\
  envelope_field "method" req = Some (JStr "a2a.getMarketData") /\
  envelope_field "params" req = Some (JObj []) /\
  (forall r,
     fst (a2a_client_call env "a2a.getMarketData" (Some []) w) = Ok r ->
     fst run = Ok (json_dumps env r)).
Proof.
  intros Hc req run. subst run.
  rewrite (get_markets_eq env w Hc), (a2a_client_call_eq env _ _ w Hc).
  fold req. cbn [fst snd].
  split; [reflexivity|]. do 2 (split; [reflexivity|]).
  intros r Hr. now rewrite Hr.
Qed.

Lemma X3_get_markets_passthrough_witness :
  let env := scripted [Response 200 (Ok (JObj [("result", JArr [JInt 7])]))]
                      (Ok "") in
  let self := client_init "http://localhost:3000/api/a2a" "0xA11CE" 4242 "k" in
  a2a_client (world_with self) = Some self /\
  fst (get_markets env (world_with self)) = Ok "[7]".
Proof.
  intros env self. split; [reflexivity|].
  destruct (@X3_get_markets_passthrough env (world_with self) self eq_refl)
    as (_ & _ & _ & Hr).
  exact (Hr (JArr [JInt 7]) eq_refl).
Defined.

(** X4. Before [main] has installed the client, every adapter answers with
    the payload of the [AttributeError] on [None] and leaves the world
    untouched: nothing is posted, nothing is recorded. *)
Theorem X4_adapters_without_client (env : Env) (w : World) :
  a2a_client w = None ->
  let refused :=
    (Ok (json_dumps env
           (JObj [("error", JStr "'NoneType' object has no attribute 'call'")])),
     w) in
  get_markets env w = refused /\
  get_portfolio env w = refused /\
  (forall market_id outcome amount,
     buy_shares env market_id outcome amount w = refused) /\
  (forall content, create_post env content w = refused) /\
  (forall limit, get_feed env limit w = refused).
Proof.
  intros Hc refused. subst refused.
  repeat split; intros;
    unfold get_markets, get_portfolio, buy_shares, create_post, get_feed;
    apply (adapter_without_client env _ _ _ w Hc).
Qed.

Lemma X4_adapters_without_client_witness :
  a2a_client empty_world = None /\
  create_post (scripted [] (Ok "")) "hello" empty_world
  = (Ok "{'error': ''NoneType' object has no attribute 'call''}", empty_world).
Proof.
  split; [reflexivity|].
  destruct (@X4_adapters_without_client (scripted [] (Ok "")) empty_world eq_refl)
    as (_ & _ & _ & Hpost & _).
  exact (Hpost "hello").
Defined.

(** ** More on the client *)

(** X5. A call is one attempt that always costs an id: however it ends,
    exactly one request has been posted and the counter is one higher.
    What the post raises (a connection failure, a timeout) and what
    decoding a 2xx body raises come out of the call unchanged, so a call
    made after a failed one never reuses the failed one's id. *)
Theorem X5_call_is_one_attempt (env : Env) (self : BabylonA2AClient)
    (tr : list Event) (method : string) (params : option dict) :
  let req := call_request self method params in
  let run := call env method params (self, tr) in
  snd run = (set_message_id (message_id self + 1) self,
             (tr ++ [EvPost req])%list) /\
  (forall e, post env tr req = PostRaises e -> fst run = Raise e) /\
  (forall status e,
     post env tr req = Response status (Raise e) ->
     200 <= status <= 299 ->
     fst run = Raise e) /\
  (forall method' params',
     envelope_field "id"
       (call_request (fst (snd run)) method' params')
     = Some (JInt (message_id self + 1)) /\
     envelope_field "id" (call_request (fst (snd run)) method' params')
     <> envelope_field "id" req).
Proof.
  intros req run. subst run. rewrite call_eq. fold req. cbn [fst snd].
  split; [reflexivity|]. split; [|split].
  - intros e He. now rewrite He.
  - intros status e He Hok. rewrite He. cbn [call_result].
    apply is_success_2xx in Hok. now rewrite Hok.
  - intros method' params'. split; [reflexivity|].
    cbn. intros [= H]. lia.
Qed.

Lemma X5_call_is_one_attempt_witness :
  let env := scripted [PostRaises (Exc (TransportError "timed out"))] (Ok "") in
  let self := client_init "http://localhost:3000/api/a2a" "0xA11CE" 4242 "k" in
  let run := call env "a2a.buyShares" None (self, []) in
  fst run = Raise (Exc (TransportError "timed out")) /\
  message_id (fst (snd run)) = 2.
Proof.
  intros env self run.
  destruct (X5_call_is_one_attempt env self [] "a2a.buyShares" None)
    as (Hst & Hpost & _).
  split.
  - exact (Hpost _ eq_refl).
  - subst run. rewrite Hst. reflexivity.
Defined.

(** X6. An ['error'] field counts as an error whatever it holds.  A 2xx
    body that carries a result together with a null error, as some servers
    send on success, does not give the result: the call raises the
    [TypeError] of subscripting [None]; an error given as a bare string
    raises the [TypeError] of indexing a string with a string; an error
    object without a ['message'] raises [KeyError('message')]. *)
Theorem X6_error_field_wins (env : Env) (self : BabylonA2AClient)
    (tr : list Event) (method : string) (params : option dict)
    (status : Z) (kvs : dict) :
  post env tr (call_request self method params) = Response status (Ok (JObj kvs)) ->
  200 <= status <= 299 ->
  let outcome := fst (call env method params (self, tr)) in
  (dict_get "error" kvs = Some JNull ->
   exists msg, outcome = Raise (Exc (TypeError msg))) /\
  (forall text, dict_get "error" kvs = Some (JStr text) ->
   exists msg, outcome = Raise (Exc (TypeError msg))) /\
  (forall ekvs, dict_get "error" kvs = Some (JObj ekvs) ->
   dict_get "message" ekvs = None ->
   outcome = Raise (Exc (KeyError "message"))) /\
  (forall err, dict_get "error" kvs = Some err ->
   forall r, outcome <> Ok r).
Proof.
  intros Hpost Hok outcome. subst outcome. rewrite call_eq, Hpost.
  cbn [fst call_result]. apply is_success_2xx in Hok. rewrite Hok.
  unfold decode_body. cbn [py_contains py_getitem].
  repeat split.
  - intros Herr. rewrite Herr. eexists; reflexivity.
  - intros text Herr. rewrite Herr. eexists; reflexivity.
  - intros ekvs Herr Hmsg. rewrite Herr. cbn. now rewrite Hmsg.
  - intros err Herr r. rewrite Herr.
    destruct (py_getitem err "message"); discriminate.
Qed.

Lemma X6_error_field_wins_witness :
  let env := scripted
               [Response 200 (Ok (JObj [("result", JObj [("ok", JBool true)]);
                                        ("error", JNull)]))] (Ok "") in
  let self := client_init "http://localhost:3000/api/a2a" "0xA11CE" 4242 "k" in
  exists msg,
    fst (call env "a2a.getBalance" None (self, [])) = Raise (Exc (TypeError msg)).
Proof.
  intros env self.
  assert (H2xx : 200 <= 200 <= 299) by lia.
  exact (proj1 (@X6_error_field_wins env self [] "a2a.getBalance" None 200
                  [("result", JObj [("ok", JBool true)]); ("error", JNull)]
                  eq_refl H2xx) eq_refl).
Defined.

Lemma call_all_eq (env : Env) (calls : list (string * option dict))
    (self : BabylonA2AClient) (tr : list Event) :
  call_all env calls (self, tr)
  = (set_message_id (message_id self + Z.of_nat (List.length calls)) self,
     (tr ++ map EvPost (run_requests self calls))%list).
Proof.
  revert self tr. induction calls as [|[method params] rest IH]; intros self tr.
  - cbn. now rewrite Z.add_0_r, set_message_id_same, app_nil_r.
  - cbn [call_all run_requests]. rewrite call_eq. cbn [snd].
    rewrite IH, set_message_id_twice, <- app_assoc. cbn.
    do 2 f_equal. lia.
Qed.

Lemma run_requests_envelopes (self : BabylonA2AClient)
    (calls : list (string * option dict)) :
  map (envelope_field "method") (run_requests self calls)
  = map (fun c => Some (JStr (fst c))) calls /\
  map (envelope_field "params") (run_requests self calls)
  = map (fun c => Some (JObj (params_or_empty (snd c)))) calls /\
  Forall (fun req =>
            url req = http_url self /\
            envelope_field "jsonrpc" req = Some (JStr "2.0") /\
            (exists kvs, body req = JObj kvs /\
               dict_keys kvs = ["jsonrpc"; "method"; "params"; "id"]))
         (run_requests self calls).
Proof.
  revert self. induction calls as [|[method params] rest IH]; intros self.
  - repeat split. constructor.
  - destruct (IH (set_message_id (message_id self + 1) self))
      as (Hm & Hp & Hall).
    cbn [run_requests map fst snd]. rewrite Hm, Hp. repeat split.
    constructor; [|exact Hall].
    repeat split. eexists. split; reflexivity.
Qed.

(** X7. A run of calls on one instance puts the calls on the wire one for
    one and in order: the posted envelopes carry the calls' methods and
    their params (the empty mapping when params is [None] or empty), each
    is a JSON-RPC "2.0" mapping with exactly the keys jsonrpc, method,
    params and id, and each goes to the URL the instance was built
    with. *)
Theorem X7_calls_on_the_wire (env : Env) (http_url address : string)
    (token_id : Z) (private_key : string)
    (calls : list (string * option dict)) (tr : list Event) :
  let self := client_init http_url address token_id private_key in
  exists reqs : list HttpRequest,
    snd (call_all env calls (self, tr)) = (tr ++ map EvPost reqs)%list /\
    map (envelope_field "method") reqs = map (fun c => Some (JStr (fst c))) calls /\
    map (envelope_field "params") reqs
    = map (fun c => Some (JObj (match snd c with
                                | Some (kv :: more) => kv :: more
                                | _ => []
                                end))) calls /\
    Forall (fun req =>
              url req = http_url /\
              envelope_field "jsonrpc" req = Some (JStr "2.0") /\
              (exists kvs, body req = JObj kvs /\
                 dict_keys kvs = ["jsonrpc"; "method"; "params"; "id"]))
           reqs.
Proof.
  intros self. exists (run_requests self calls).
  rewrite call_all_eq. cbn [snd]. split; [reflexivity|].
  apply run_requests_envelopes.
Qed.

Example calls_on_the_wire :
  map (fun req => (envelope_field "method" req, envelope_field "params" req))
    (posts_of
       (snd (call_all (scripted [] (Ok ""))
               [("a2a.getBalance", None); ("a2a.getFeed", Some []);
                ("a2a.getPositions", Some [("userId", JStr "11155111:7")])]
               (client_init "http://localhost:3000/api/a2a" "0xA11CE" 7 "k", []))))
  = [ (Some (JStr "a2a.getBalance"), Some (JObj []));
      (Some (JStr "a2a.getFeed"), Some (JObj []));
      (Some (JStr "a2a.getPositions"),
       Some (JObj [("userId", JStr "11155111:7")])) ].
Proof. vm_compute. reflexivity. Qed.

(** ** More on the portfolio *)

(** X8. [get_portfolio] stops at the first call that fails.  When the
    balance call raises, the positions request is never posted: one request
    went out and the adapter returns the payload of that failure.  When the
    balance call returns and the positions call raises, both requests went
    out and the payload is that of the second failure.  When both return
    but the balance result is no mapping, both requests went out and the
    payload is that of the [AttributeError] on [get]. *)
Theorem X8_get_portfolio_stops_at_first_failure (env : Env) (w : World)
    (self : BabylonA2AClient) :
  a2a_client w = Some self ->
  let req1 := call_request self "a2a.getBalance" (Some []) in
  let w1 := after_call w self req1 in
  let self1 := set_message_id (message_id self + 1) self in
  let params2 := [("userId", JStr (agent_id self))] in
  let req2 := call_request self1 "a2a.getPositions" (Some params2) in
  let w2 := after_call w1 self1 req2 in
  (forall e,
     fst (a2a_client_call env "a2a.getBalance" (Some []) w) = Raise (Exc e) ->
     get_portfolio env w = (Ok (json_dumps env (error_payload e)), w1) /\
     posts_of (trace w1) = (posts_of (trace w) ++ [req1])%list) /\
  (forall balance e,
     fst (a2a_client_call env "a2a.getBalance" (Some []) w) = Ok balance ->
     fst (a2a_client_call env "a2a.getPositions" (Some params2) w1)
     = Raise (Exc e) ->
     get_portfolio env w = (Ok (json_dumps env (error_payload e)), w2)) /\
  (forall balance positions,
     fst (a2a_client_call env "a2a.getBalance" (Some []) w) = Ok balance ->
     fst (a2a_client_call env "a2a.getPositions" (Some params2) w1)
     = Ok positions ->
     (forall kvs, balance <> JObj kvs) ->
     get_portfolio env w
     = (Ok (json_dumps env
              (JObj [("error",
                      JStr ("'" ++ type_name balance
                                ++ "' object has no attribute 'get'"))])), w2)).
Proof.
  intros Hc req1 w1 self1 params2 req2 w2.
  assert (Hc1 : a2a_client w1 = Some self1) by reflexivity.
  rewrite (get_portfolio_eq env w Hc), (a2a_client_call_eq env _ _ w Hc),
    (a2a_client_call_eq env _ _ w1 Hc1).
  fold req1. fold w1. fold self1. fold params2. fold req2. fold w2. cbn [fst].
  split; [|split].
  - intros e He. rewrite He. split; [reflexivity|].
    cbn [w1 after_call trace]. now rewrite posts_of_app.
  - intros balance e Hb Hp. rewrite Hb, Hp. reflexivity.
  - intros balance positions Hb Hp Hnot. rewrite Hb, Hp.
    unfold caught_or_raised.
    now rewrite (@py_get_not_mapping balance "balance" (JInt 0) Hnot).
Qed.

Lemma X8_get_portfolio_stops_at_first_failure_witness :
  let env := scripted [Response 503 (Ok JNull)] (Ok "") in
  let self := client_init "http://localhost:3000/api/a2a" "0xA11CE" 4242 "k" in
  a2a_client (world_with self) = Some self /\
  fst (get_portfolio env (world_with self)) = Ok "{'error': 'HTTP status 503'}" /\
  map (envelope_field "method")
      (posts_of (trace (snd (get_portfolio env (world_with self)))))
  = [Some (JStr "a2a.getBalance")].
Proof.
  intros env self. split; [reflexivity|].
  destruct (@X8_get_portfolio_stops_at_first_failure env (world_with self) self
              eq_refl) as (Hfirst & _).
  destruct (Hfirst (HTTPStatusError 503 "HTTP status 503") eq_refl) as (Hrun & _).
  rewrite Hrun. split; reflexivity.
Defined.

(** ** More on the memory and the prompt *)

Lemma last_n_snoc {A : Type} (n : nat) (l : list A) (x : A) :
  last_n (S n) (l ++ [x])%list = (last_n n l ++ [x])%list.
Proof.
  unfold last_n. rewrite length_app. cbn [List.length].
  replace (List.length l + 1 - S n)%nat with (List.length l - n)%nat by lia.
  rewrite skipn_app.
  replace (List.length l - n - List.length l)%nat with O by lia.
  reflexivity.
Qed.

Lemma last_n_tl {A : Type} (n : nat) (l : list A) :
  (n < List.length l)%nat -> last_n n (tl l) = last_n n l.
Proof.
  intros H. destruct l as [|x l']; [reflexivity|].
  unfold last_n. cbn [tl List.length].
  replace (S (List.length l') - n)%nat with (S (List.length l' - n)) by (cbn in H; lia).
  reflexivity.
Qed.

Lemma last_n_last_n {A : Type} (n : nat) (l : list A) :
  last_n n (last_n n l) = last_n n l.
Proof. apply last_n_all. rewrite last_n_length. lia. Qed.

Lemma last_n_nonempty {A : Type} (n : nat) (l : list A) :
  l <> [] -> last_n (S n) l <> [].
Proof.
  intros Hne E. apply (f_equal (@List.length A)) in E.
  rewrite last_n_length in E. destruct l; [congruence | cbn in E; lia].
Qed.

Lemma append_bounded_recent (e : MemoryEntry) (log : list MemoryEntry) (n : nat) :
  (n < 20)%nat ->
  last_n (S n) (append_bounded e log) = (last_n n log ++ [e])%list.
Proof.
  intros Hn. unfold append_bounded.
  destruct (Nat.ltb_spec 20 (List.length (log ++ [e])%list)) as [Hgt | Hle].
  - rewrite length_app in Hgt. cbn in Hgt.
    destruct log as [|x log']; [cbn in Hgt; lia|].
    rewrite <- app_comm_cons. cbn [tl].
    rewrite last_n_snoc. f_equal.
    apply (@last_n_tl _ n (x :: log')). cbn in *. lia.
  - apply last_n_snoc.
Qed.

(** X9. Only the five newest entries reach the summary: the summary of a
    log is the summary of its last five entries, so two logs that agree on
    their last five entries have the same summary. *)
Theorem X9_summary_reads_last_five (env : Env) (log : list MemoryEntry) :
  memory_summary env log = memory_summary env (last_n 5 log) /\
  (forall log', last_n 5 log' = last_n 5 log ->
     memory_summary env log' = memory_summary env log).
Proof.
  assert (H : forall l, memory_summary env l = memory_summary env (last_n 5 l)).
  { intros l. destruct l as [|a l'] eqn:E; [reflexivity|]. rewrite <- E.
    assert (Hne : l <> []) by (subst; discriminate).
    rewrite (memory_summary_nonempty env Hne).
    rewrite (memory_summary_nonempty env (last_n_nonempty 4 Hne)).
    now rewrite last_n_last_n. }
  split; [apply H|].
  intros log' E. rewrite (H log'), (H log). now rewrite E.
Qed.

(** X10. Recording and eviction compose with the summary: right after
    [add_to_memory] the summary is the rendering of the four newest entries
    from before, in their order, followed by the rendering of the new
    entry, whether or not the append evicted the oldest entry. *)
Theorem X10_summary_after_recording (env : Env) (action : string)
    (result : json) (w : World) :
  let w' := snd (add_to_memory env action result w) in
  let entry := {| action := action;
                  result := result;
                  timestamp := now_isoformat env (trace w) |} in
  fst (get_memory_summary env w')
  = Ok (join nl (map (format_entry env)
                     (last_n 4 (action_memory w) ++ [entry])%list)).
Proof.
  intros w' entry. cbn [get_memory_summary fst]. f_equal.
  subst w'. cbn [add_to_memory snd action_memory]. fold entry.
  assert (Hne : append_bounded entry (action_memory w) <> []).
  { destruct (append_bounded_last entry (action_memory w)) as (kept & -> & _).
    destruct kept; discriminate. }
  rewrite (memory_summary_nonempty env Hne).
  rewrite (@append_bounded_recent entry (action_memory w) 4) by lia.
  reflexivity.
Qed.

Example summary_after_twenty_one_posts :
  let env := scripted [] (Ok "") in
  let w := snd (add_all_to_memory env twenty_one_posts empty_world) in
  fst (get_memory_summary env w)
  = Ok (join nl [ "[2025-01-01T00:00:00.16] CREATE_POST: 17";
                  "[2025-01-01T00:00:00.17] CREATE_POST: 18";
                  "[2025-01-01T00:00:00.18] CREATE_POST: 19";
                  "[2025-01-01T00:00:00.19] CREATE_POST: 20";
                  "[2025-01-01T00:00:00.20] CREATE_POST: 21" ]).
Proof. vm_compute. reflexivity. Qed.

Lemma occurs_in_join (sep p : string) (parts : list string) :
  In p parts -> occurs_in p (join sep parts).
Proof.
  induction parts as [|q rest IH]; [intros []|].
  intros [-> | Hin].
  - destruct rest as [|r rest'].
    + exists "", "". cbn. now rewrite string_app_nil_r.
    + exists "", (sep ++ join sep (r :: rest')). reflexivity.
  - destruct rest as [|r rest']; [destruct Hin|].
    change (join sep (q :: r :: rest')) with (q ++ sep ++ join sep (r :: rest')).
    apply occurs_in_app_r, occurs_in_app_r, IH, Hin.
Qed.

Lemma occurs_in_trans (a b c : string) :
  occurs_in a b -> occurs_in b c -> occurs_in a c.
Proof.
  intros (p & q & ->) (p' & q' & ->).
  exists (p' ++ p), (q ++ q'). now rewrite !string_app_assoc.
Qed.

Lemma action_in_format_entry (env : Env) (a : MemoryEntry) :
  occurs_in (action a) (format_entry env a).
Proof.
  unfold format_entry. apply occurs_in_app_r, occurs_in_app_r, occurs_in_app_r.
  exists "", (": " ++ str_slice_to 80 (py_str env (result a))). reflexivity.
Qed.

Lemma summary_in_prompt (env : Env) (babylon_agent : BabylonAgent) (w : World) :
  occurs_in (memory_summary env (action_memory w))
            (decide_prompt babylon_agent env w).
Proof.
  unfold decide_prompt, system_instruction.
  apply occurs_in_app_l.
  apply occurs_in_app_r, occurs_in_app_r, occurs_in_app_r.
  eexists "", _. reflexivity.
Qed.

Lemma recent_entry_in_prompt (env : Env) (babylon_agent : BabylonAgent)
    (w : World) (a : MemoryEntry) :
  In a (last_n 5 (action_memory w)) ->
  occurs_in (format_entry env a) (decide_prompt babylon_agent env w).
Proof.
  intros Hin.
  apply occurs_in_trans with (b := memory_summary env (action_memory w));
    [|apply summary_in_prompt].
  assert (Hne : action_memory w <> []).
  { intros E. rewrite E in Hin. destruct Hin. }
  rewrite (memory_summary_nonempty env Hne).
  apply occurs_in_join, in_map, Hin.
Qed.

Lemma strategy_in_prompt (env : Env) (babylon_agent : BabylonAgent) (w : World) :
  occurs_in (strategy babylon_agent) (decide_prompt babylon_agent env w).
Proof.
  unfold decide_prompt, system_instruction.
  apply occurs_in_app_l, occurs_in_app_r.
  eexists "", _. reflexivity.
Qed.

(** X11. [decide] hands the graph a prompt built from the world as it is
    and changes nothing before the graph runs.  The prompt holds the
    agent's strategy and the memory summary: the sentinel while nothing is
    recorded, and otherwise the rendering (so the action label) of each of
    the five newest entries. *)
Theorem X11_prompt_carries_memory (env : Env) (babylon_agent : BabylonAgent)
    (session_id : string) (w : World) :
  exists prompt : string,
    decide env babylon_agent session_id w
    = graph_ainvoke env prompt session_id w /\
    occurs_in (strategy babylon_agent) prompt /\
    occurs_in (memory_summary env (action_memory w)) prompt /\
    (action_memory w = [] -> occurs_in "No recent actions." prompt) /\
    (forall a, In a (last_n 5 (action_memory w)) ->
       occurs_in (format_entry env a) prompt /\ occurs_in (action a) prompt).
Proof.
  exists (decide_prompt babylon_agent env w). repeat split.
  - apply strategy_in_prompt.
  - apply summary_in_prompt.
  - intros E. pose proof (summary_in_prompt env babylon_agent w) as H.
    now rewrite E in H.
  - now apply recent_entry_in_prompt.
  - apply occurs_in_trans with (b := format_entry env a).
    + apply action_in_format_entry.
    + now apply recent_entry_in_prompt.
Qed.

Lemma X11_prompt_carries_memory_witness :
  let env := scripted [] (Ok "hold") in
  let agent := {| strategy := "contrarian" |} in
  exists prompt,
    decide env agent "11155111:4242" empty_world = (Ok "hold", empty_world) /\
    occurs_in "contrarian" prompt /\
    occurs_in "No recent actions." prompt.
Proof.
  intros env agent.
  destruct (X11_prompt_carries_memory env agent "11155111:4242" empty_world)
    as (prompt & Hd & Hs & _ & Hempty & _).
  exists prompt. repeat split.
  - exact Hs.
  - exact (Hempty eq_refl).
Defined.

Lemma recorded_action_in_prompt (env : Env) (babylon_agent : BabylonAgent)
    (w' : World) (entry : MemoryEntry) (log : list MemoryEntry) :
  action_memory w' = append_bounded entry log ->
  occurs_in (action entry) (decide_prompt babylon_agent env w').
Proof.
  intros Hmem.
  apply occurs_in_trans with (b := format_entry env entry);
    [apply action_in_format_entry|].
  apply recent_entry_in_prompt. rewrite Hmem.
  rewrite (@append_bounded_recent entry log 4) by lia.
  apply in_or_app. right. now left.
Qed.

(** X12. What the agent does comes back to it: once [buy_shares] or
    [create_post] has gone through, the prompt of the next [decide] holds
    the label of that action ("BUY_" with the upper-cased outcome, or
    "CREATE_POST"), however full the log was. *)
Theorem X12_action_reaches_next_prompt (env : Env)
    (babylon_agent : BabylonAgent) (w : World) (self : BabylonA2AClient) :
  a2a_client w = Some self ->
  (forall market_id outcome amount r,
     fst (a2a_client_call env "a2a.buyShares"
            (Some [ ("marketId", JStr market_id);
                    ("outcome", JStr (str_upper env outcome));
                    ("amount", JFloat amount) ]) w) = Ok r ->
     occurs_in ("BUY_" ++ str_upper env outcome)
       (decide_prompt babylon_agent env
          (snd (buy_shares env market_id outcome amount w)))) /\
  (forall content r,
     fst (a2a_client_call env "a2a.createPost"
            (Some [ ("content", JStr (str_slice_to 280 content));
                    ("type", JStr "post") ]) w) = Ok r ->
     occurs_in "CREATE_POST"
       (decide_prompt babylon_agent env (snd (create_post env content w)))).
Proof.
  intros Hc. split.
  - intros market_id outcome amount r.
    rewrite (a2a_client_call_eq env _ _ w Hc). cbn [fst]. intros Hr.
    pose proof (recorded_call_eq env "a2a.buyShares"
                  [ ("marketId", JStr market_id);
                    ("outcome", JStr (str_upper env outcome));
                    ("amount", JFloat amount) ]
                  ("BUY_" ++ str_upper env outcome) w Hc) as Hrun.
    cbv zeta in Hrun. unfold dict in *. rewrite Hr in Hrun.
    unfold buy_shares. rewrite Hrun. cbn [snd].
    eapply recorded_action_in_prompt
      with (entry := {| action := "BUY_" ++ str_upper env outcome;
                        result := r; timestamp := _ |}).
    reflexivity.
  - intros content r.
    rewrite (a2a_client_call_eq env _ _ w Hc). cbn [fst]. intros Hr.
    pose proof (recorded_call_eq env "a2a.createPost"
                  [ ("content", JStr (str_slice_to 280 content));
                    ("type", JStr "post") ]
                  "CREATE_POST" w Hc) as Hrun.
    cbv zeta in Hrun. unfold dict in *. rewrite Hr in Hrun.
    unfold create_post. rewrite Hrun. cbn [snd].
    eapply recorded_action_in_prompt
      with (entry := {| action := "CREATE_POST";
                        result := r; timestamp := _ |}).
    reflexivity.
Qed.

Lemma X12_action_reaches_next_prompt_witness :
  let env := scripted [Response 200 (Ok (JObj [("result", bought)]))] (Ok "") in
  let self := client_init "http://localhost:3000/api/a2a" "0xA11CE" 4242 "k" in
  a2a_client (world_with self) = Some self /\
  occurs_in "BUY_NO"
    (decide_prompt {| strategy := "balanced" |} env
       (snd (buy_shares env "m1" "no" 0 (world_with self)))).
Proof.
  intros env self. split; [reflexivity|].
  destruct (@X12_action_reaches_next_prompt env {| strategy := "balanced" |}
              (world_with self) self eq_refl) as (Hbuy & _).
  exact (Hbuy "m1" "no" 0 bought eq_refl).
Defined.

(** ** Runs of tools *)

Lemma in_sequence_nil (self : BabylonA2AClient) : in_sequence self [].
Proof. split; [reflexivity | constructor]. Qed.

Lemma in_sequence_cons (self : BabylonA2AClient) (method : string)
    (params : option dict) (reqs : list HttpRequest) :
  in_sequence (bumped self 1) reqs ->
  in_sequence self (call_request self method params :: reqs).
Proof.
  intros [Hids Hall]. split.
  - unfold request_ids, ids_from in *. cbn [map List.length seq]. f_equal.
    + cbn. now rewrite Z.add_0_r.
    + rewrite Hids, <- seq_shift, map_map. apply map_ext. intros i.
      cbn [bumped message_id set_message_id]. do 2 f_equal. lia.
  - constructor; [split; reflexivity | exact Hall].
Qed.

Lemma ids_from_NoDup (first : Z) (n : nat) : NoDup (ids_from first n).
Proof.
  unfold ids_from. apply Finite.Injective_map_NoDup; [|apply seq_NoDup].
  intros a b [= H]. lia.
Qed.

Lemma append_bounded_length (e : MemoryEntry) (log : list MemoryEntry) :
  (List.length log <= 20)%nat ->
  (List.length (append_bounded e log) <= 20)%nat.
Proof.
  intros H. rewrite append_bounded_last_n by exact H.
  rewrite last_n_length. lia.
Qed.

Lemma tool_step_after_call (w : World) (self : BabylonA2AClient)
    (method : string) (params : option dict) :
  tool_step self w (after_call w self (call_request self method params))
    [call_request self method params].
Proof.
  repeat split.
  - cbn [after_call trace]. now rewrite posts_of_app.
  - cbn. now rewrite Z.add_0_r.
  - constructor; [split; reflexivity | constructor].
  - intros H. exact H.
Qed.

Lemma tool_step_after_record (env : Env) (w : World) (self : BabylonA2AClient)
    (method : string) (params : option dict) (label : string) (r : json) :
  tool_step self w
    (after_record env w self (call_request self method params) label r)
    [call_request self method params].
Proof.
  repeat split.
  - cbn [after_record after_call trace]. rewrite !posts_of_app. cbn.
    now rewrite app_nil_r.
  - cbn. now rewrite Z.add_0_r.
  - constructor; [split; reflexivity | constructor].
  - intros H. cbn [after_record action_memory]. now apply append_bounded_length.
Qed.

Lemma tool_step_two_calls (w : World) (self : BabylonA2AClient)
    (m1 m2 : string) (p1 p2 : option dict) :
  let req1 := call_request self m1 p1 in
  let self1 := set_message_id (message_id self + 1) self in
  let req2 := call_request self1 m2 p2 in
  tool_step self w (after_call (after_call w self req1) self1 req2) [req1; req2].
Proof.
  intros req1 self1 req2. repeat split.
  - cbn [after_call trace]. rewrite !posts_of_app, <- app_assoc. reflexivity.
  - cbn. rewrite Z.add_0_r. reflexivity.
  - repeat constructor.
  - cbn [after_call a2a_client]. unfold self1, bumped.
    rewrite set_message_id_twice. cbn [message_id set_message_id List.length].
    do 2 f_equal. lia.
  - intros H. exact H.
Qed.

Lemma buy_shares_eq (env : Env) (market_id outcome : string) (amount : Z)
    (w : World) (self : BabylonA2AClient) :
  a2a_client w = Some self ->
  buy_shares env market_id outcome amount w
  = match call_result env
            (post env (trace w)
               (call_request self "a2a.buyShares"
                  (Some [ ("marketId", JStr market_id);
                          ("outcome", JStr (str_upper env outcome));
                          ("amount", JFloat amount) ]))) with
    | Ok r =>
        (Ok (json_dumps env r),
         after_record env w self
           (call_request self "a2a.buyShares"
              (Some [ ("marketId", JStr market_id);
                      ("outcome", JStr (str_upper env outcome));
                      ("amount", JFloat amount) ]))
           ("BUY_" ++ str_upper env outcome) r)
    | Raise (Exc e) =>
        (Ok (json_dumps env (error_payload e)),
         after_call w self
           (call_request self "a2a.buyShares"
              (Some [ ("marketId", JStr market_id);
                      ("outcome", JStr (str_upper env outcome));
                      ("amount", JFloat amount) ])))
    | Raise (Sig s) =>
        (Raise (Sig s),
         after_call w self
           (call_request self "a2a.buyShares"
              (Some [ ("marketId", JStr market_id);
                      ("outcome", JStr (str_upper env outcome));
                      ("amount", JFloat amount) ])))
    end.
Proof.
  intros Hc.
  exact (recorded_call_eq env "a2a.buyShares"
           [ ("marketId", JStr market_id);
             ("outcome", JStr (str_upper env outcome));
             ("amount", JFloat amount) ]
           ("BUY_" ++ str_upper env outcome) w Hc).
Qed.

Lemma create_post_eq (env : Env) (content : string) (w : World)
    (self : BabylonA2AClient) :
  a2a_client w = Some self ->
  create_post env content w
  = match call_result env
            (post env (trace w)
               (call_request self "a2a.createPost"
                  (Some [ ("content", JStr (str_slice_to 280 content));
                          ("type", JStr "post") ]))) with
    | Ok r =>
        (Ok (json_dumps env r),
         after_record env w self
           (call_request self "a2a.createPost"
              (Some [ ("content", JStr (str_slice_to 280 content));
                      ("type", JStr "post") ]))
           "CREATE_POST" r)
    | Raise (Exc e) =>
        (Ok (json_dumps env (error_payload e)),
         after_call w self
           (call_request self "a2a.createPost"
              (Some [ ("content", JStr (str_slice_to 280 content));
                      ("type", JStr "post") ])))
    | Raise (Sig s) =>
        (Raise (Sig s),
         after_call w self
           (call_request self "a2a.createPost"
              (Some [ ("content", JStr (str_slice_to 280 content));
                      ("type", JStr "post") ])))
    end.
Proof.
  intros Hc.
  exact (recorded_call_eq env "a2a.createPost"
           [ ("content", JStr (str_slice_to 280 content));
             ("type", JStr "post") ]
           "CREATE_POST" w Hc).
Qed.

Lemma invoke_step (env : Env) (t : ToolCall) (w : World)
    (self : BabylonA2AClient) :
  a2a_client w = Some self ->
  exists reqs,
    tool_step self w (snd (invoke env t w)) reqs /\
    (1 <= List.length reqs <= 2)%nat.
Proof.
  intros Hc. destruct t as [| |market_id outcome amount|content|limit];
    cbn [invoke].
  - rewrite (get_markets_eq env w Hc). eexists. split;
      [apply tool_step_after_call | cbn; lia].
  - rewrite (get_portfolio_eq env w Hc).
    destruct (call_result env _) as [balance | [e | s]]; cbn [snd].
    + eexists. split; [apply tool_step_two_calls | cbn; lia].
    + eexists. split; [apply tool_step_after_call | cbn; lia].
    + eexists. split; [apply tool_step_after_call | cbn; lia].
  - rewrite (buy_shares_eq env market_id outcome amount w Hc).
    destruct (call_result env _) as [r | [e | s]]; cbn [snd]; eexists;
      (split; [apply tool_step_after_record || apply tool_step_after_call
              | cbn; lia]).
  - rewrite (create_post_eq env content w Hc).
    destruct (call_result env _) as [r | [e | s]]; cbn [snd]; eexists;
      (split; [apply tool_step_after_record || apply tool_step_after_call
              | cbn; lia]).
  - rewrite (get_feed_eq env limit w Hc). eexists. split;
      [apply tool_step_after_call | cbn; lia].
Qed.

Lemma map_seq_from {A : Type} (f : nat -> A) (a n : nat) :
  map f (seq a n) = map (fun i => f (a + i)%nat) (seq 0 n).
Proof.
  revert a. induction n as [|n IH]; intros a; [reflexivity|].
  cbn [seq map]. rewrite Nat.add_0_r. f_equal.
  rewrite (IH (S a)), <- seq_shift, map_map. apply map_ext. intros i.
  f_equal. lia.
Qed.

Lemma in_sequence_app (self : BabylonA2AClient) (r1 r2 : list HttpRequest) :
  in_sequence self r1 ->
  in_sequence (bumped self (List.length r1)) r2 ->
  in_sequence self (r1 ++ r2)%list.
Proof.
  intros [Hids1 Hall1] [Hids2 Hall2]. split.
  - unfold request_ids, ids_from in *.
    rewrite map_app, length_app, seq_app, map_app, Hids1, Hids2. f_equal.
    cbn [Nat.add]. rewrite (map_seq_from _ (List.length r1)).
    apply map_ext. intros i.
    cbn [bumped message_id set_message_id]. do 2 f_equal. lia.
  - apply Forall_app. split; [exact Hall1 | exact Hall2].
Qed.

Lemma tool_step_trans (self : BabylonA2AClient) (w w1 w2 : World)
    (r1 r2 : list HttpRequest) :
  tool_step self w w1 r1 ->
  tool_step (bumped self (List.length r1)) w1 w2 r2 ->
  tool_step self w w2 (r1 ++ r2)%list.
Proof.
  intros (Hp1 & Hs1 & Hc1 & Hm1) (Hp2 & Hs2 & Hc2 & Hm2). repeat split.
  - now rewrite Hp2, Hp1, app_assoc.
  - apply (in_sequence_app Hs1 Hs2).
  - apply (in_sequence_app Hs1 Hs2).
  - rewrite Hc2. unfold bumped. rewrite set_message_id_twice, length_app.
    cbn [message_id set_message_id]. do 2 f_equal. lia.
  - intros H. apply Hm2, Hm1, H.
Qed.

Lemma invoke_all_steps (env : Env) (ts : list ToolCall) (w : World)
    (self : BabylonA2AClient) :
  a2a_client w = Some self ->
  exists reqs,
    tool_step self w (invoke_all env ts w) reqs /\
    (List.length ts <= List.length reqs <= 2 * List.length ts)%nat.
Proof.
  revert w self. induction ts as [|t rest IH]; intros w self Hc.
  - exists []. split; [|cbn; lia]. repeat split.
    + cbn. now rewrite app_nil_r.
    + constructor.
    + cbn. unfold bumped. cbn. now rewrite Z.add_0_r, set_message_id_same.
    + intros H; exact H.
  - destruct (invoke_step env t w Hc) as (r1 & Hstep & Hlen1).
    destruct Hstep as (Hp1 & Hs1 & Hc1 & Hm1).
    destruct (IH _ _ Hc1) as (r2 & Hrest & Hlen2).
    exists (r1 ++ r2)%list. split.
    + cbn [invoke_all].
      apply tool_step_trans with (w1 := snd (invoke env t w));
        [exact (conj Hp1 (conj Hs1 (conj Hc1 Hm1))) | exact Hrest].
    + rewrite length_app. cbn [List.length]. lia.
Qed.

(** X13. However the graph strings the five tools together, the one shared
    client stays consistent.  After any run of tool invocations on a world
    with the client in place, the requests posted by the run carry the ids
    from the client's counter on, consecutive and without repetition; every
    one has the client's four headers and URL; each invocation posted one
    request or two; the client is still installed, its counter advanced by
    the number of requests; and a log of at most 20 entries still has at
    most 20. *)
Theorem X13_tool_runs_keep_ids_in_sequence (env : Env) (ts : list ToolCall)
    (w : World) (self : BabylonA2AClient) :
  a2a_client w = Some self ->
  let w' := invoke_all env ts w in
  exists reqs : list HttpRequest,
    posts_of (trace w') = (posts_of (trace w) ++ reqs)%list /\
    request_ids reqs
    = map (fun i => Some (JInt (message_id self + Z.of_nat i)))
          (seq 0 (List.length reqs)) /\
    NoDup (request_ids reqs) /\
    Forall (fun req => headers req = call_headers self /\ url req = http_url self)
           reqs /\
    (List.length ts <= List.length reqs <= 2 * List.length ts)%nat /\
    a2a_client w'
    = Some (set_message_id (message_id self + Z.of_nat (List.length reqs)) self) /\
    ((List.length (action_memory w) <= 20)%nat ->
     (List.length (action_memory w') <= 20)%nat).
Proof.
  intros Hc w'.
  destruct (invoke_all_steps env ts w Hc)
    as (reqs & (Hp & [Hids Hall] & Hcl & Hmem) & Hlen).
  exists reqs. repeat split; try assumption; try lia.
  rewrite Hids. apply ids_from_NoDup.
Qed.

Lemma X13_tool_runs_keep_ids_in_sequence_witness :
  let env := scripted [ Response 200 (Ok (JObj [("result", balance_of_100)]));
                        Response 500 (Ok JNull);
                        Response 200 (Ok (JObj [("result", bought)])) ]
                      (Ok "") in
  let self := client_init "http://localhost:3000/api/a2a" "0xA11CE" 4242 "k" in
  let w' := invoke_all env [GetPortfolio; BuyShares "m1" "yes" 0; GetMarkets]
              (world_with self) in
  a2a_client (world_with self) = Some self /\
  request_ids (posts_of (trace w'))
  = [Some (JInt 1); Some (JInt 2); Some (JInt 3); Some (JInt 4)] /\
  NoDup (request_ids (posts_of (trace w'))).
Proof.
  intros env self w'. split; [reflexivity|]. split; [reflexivity|].
  destruct (@X13_tool_runs_keep_ids_in_sequence env
              [GetPortfolio; BuyShares "m1" "yes" 0; GetMarkets]
              (world_with self) self eq_refl)
    as (reqs & Hp & _ & Hnd & _).
  fold w' in Hp. rewrite Hp. exact Hnd.
Defined.

(** ** More on the loop *)

Lemma while_true_app (env : Env) (k m : nat) (babylon_agent : BabylonAgent)
    (session_id : string) (tick_interval tick_count : Z) (w : World) :
  while_true env (k + m) babylon_agent session_id tick_interval tick_count w
  = bind (while_true env k babylon_agent session_id tick_interval tick_count)
         (fun n => while_true env m babylon_agent session_id tick_interval n) w.
Proof.
  revert tick_count w. induction k as [|k IH]; intros tick_count w.
  - reflexivity.
  - cbn [Nat.add while_true].
    destruct (tick env babylon_agent session_id tick_interval tick_count w)
      as [[n | e] w1] eqn:Ht; unfold bind; rewrite Ht; [|reflexivity].
    rewrite IH. reflexivity.
Qed.

(** The world a signal leaves behind when it ends the pass after [k]
    passes that went through. *)
Lemma while_true_raises (env : Env) (k m : nat) (babylon_agent : BabylonAgent)
    (session_id : string) (tick_interval n : Z) (w w1 w2 : World) (e : exn) :
  while_true env k babylon_agent session_id tick_interval 0 w = (Ok n, w1) ->
  tick env babylon_agent session_id tick_interval n w1 = (Raise e, w2) ->
  while_true env (k + S m) babylon_agent session_id tick_interval 0 w
  = (Raise e, w2).
Proof.
  intros Hk Ht. rewrite while_true_app, (bind_ok _ _ _ Hk).
  cbn [while_true]. now rewrite (bind_raise _ _ _ Ht).
Qed.

(** X14. A pass sleeps the configured interval after [decide] whether it
    returned or failed, with no allowance for the time [decide] took: when
    [decide] returns, the pass prints the first 100 characters of the
    decision, announces the sleep and sleeps, and hands on the counter plus
    one unless the sleep is interrupted.  Only a signal out of [decide]
    ends the pass at once, with nothing more printed and no sleep. *)
Theorem X14_pass_after_decide (env : Env) (babylon_agent : BabylonAgent)
    (session_id : string) (tick_interval tick_count : Z) (w w2 : World) :
  let run := tick env babylon_agent session_id tick_interval tick_count w in
  (forall decision,
     decide env babylon_agent session_id
       (extend w [EvPrint (TickBanner (tick_count + 1))]) = (Ok decision, w2) ->
     let reported :=
       [EvPrint (TickComplete (tick_count + 1) (str_slice_to 100 decision));
        EvPrint (Sleeping tick_interval)] in
     snd run = extend w2 (reported ++ [EvSleep tick_interval]) /\
     (String.length (str_slice_to 100 decision) <= 100)%nat /\
     (asyncio_sleep env (trace w2 ++ reported) tick_interval = None ->
      fst run = Ok (tick_count + 1)) /\
     (forall s,
        asyncio_sleep env (trace w2 ++ reported) tick_interval = Some s ->
        fst run = Raise (Sig s))) /\
  (forall s,
     decide env babylon_agent session_id
       (extend w [EvPrint (TickBanner (tick_count + 1))]) = (Raise (Sig s), w2) ->
     run = (Raise (Sig s), w2)).
Proof.
  intros run. split.
  - intros decision Hd reported. subst run.
    rewrite (tick_eq env babylon_agent session_id tick_interval tick_count w Hd).
    rewrite tick_tail, extend_extend. cbn [fst snd trace extend].
    rewrite <- app_assoc. unfold sleep_result.
    split; [reflexivity|]. split; [apply str_slice_to_length|]. split.
    + intros Hs. change (_ ++ _ ++ _)%list with (trace w2 ++ reported)%list.
      now rewrite Hs.
    + intros s Hs. change (_ ++ _ ++ _)%list with (trace w2 ++ reported)%list.
      now rewrite Hs.
  - intros s Hd. subst run.
    now rewrite (tick_eq env babylon_agent session_id tick_interval tick_count
                   w Hd).
Qed.

Lemma X14_pass_after_decide_witness :
  let env := scripted [] (Ok "Holding: no market has enough volume yet.") in
  let agent := {| strategy := "balanced" |} in
  tick env agent "11155111:4242" 30 6 empty_world
  = (Ok 7,
     extend empty_world
       [ EvPrint (TickBanner 7);
         EvPrint (TickComplete 7 "Holding: no market has enough volume yet.");
         EvPrint (Sleeping 30);
         EvSleep 30 ]).
Proof.
  intros env agent.
  destruct (X14_pass_after_decide env agent "11155111:4242" 30 6 empty_world
              (extend empty_world [EvPrint (TickBanner 7)])) as (Hok & _).
  destruct (Hok _ eq_refl) as (Hw & _ & Hr & _).
  rewrite (surjective_pairing (tick env agent "11155111:4242" 30 6 empty_world)).
  rewrite Hw, (Hr eq_refl). reflexivity.
Defined.

Lemma close_on_client (w : World) (self : BabylonA2AClient) :
  a2a_client w = Some self ->
  on_a2a_client "close" close w = (Ok tt, extend w [EvClose]).
Proof.
  intros Hc. unfold on_a2a_client, close, extend. now rewrite Hc.
Qed.

(** X15. An interrupt shuts the loop down in order.  When, after any
    number of passes that went through, a pass raises [KeyboardInterrupt]
    (out of [decide] or out of the sleep) while the client is in place,
    no further pass runs: [main] prints the shutdown line, closes the
    client once, prints the goodbye and ends normally. *)
Theorem X15_interrupt_closes_the_client (env : Env)
    (babylon_agent : BabylonAgent) (session_id : string) (tick_interval : Z)
    (k m : nat) (n : Z) (w w1 w2 : World) (self : BabylonA2AClient) :
  while_true env k babylon_agent session_id tick_interval 0 w = (Ok n, w1) ->
  tick env babylon_agent session_id tick_interval n w1
  = (Raise (Sig KeyboardInterrupt), w2) ->
  a2a_client w2 = Some self ->
  autonomous_loop env (k + S m) babylon_agent session_id tick_interval w
  = (Ok Stopped,
     extend w2 [EvPrint ShuttingDown; EvClose; EvPrint Goodbye]).
Proof.
  intros Hk Ht Hc. unfold autonomous_loop, try_except_interrupt.
  rewrite (bind_raise _ _ _
             (@while_true_raises env k m babylon_agent session_id tick_interval
                n w w1 w2 _ Hk Ht)).
  rewrite (bind_ok _ _ _ (print_eq ShuttingDown w2)).
  assert (Hc' : a2a_client (extend w2 [EvPrint ShuttingDown]) = Some self)
    by exact Hc.
  rewrite (bind_ok _ _ _ (close_on_client _ Hc')).
  rewrite (bind_ok _ _ _ (print_eq Goodbye _)).
  unfold ret. rewrite !extend_extend. reflexivity.
Qed.

(** X16. Only [KeyboardInterrupt] is shut down for.  When a pass raises
    another signal ([CancelledError], [SystemExit]), it leaves [main] as
    it is: nothing is printed and the client is not closed. *)
Theorem X16_other_signals_skip_the_shutdown (env : Env)
    (babylon_agent : BabylonAgent) (session_id : string) (tick_interval : Z)
    (k m : nat) (n : Z) (w w1 w2 : World) (s : signal) :
  while_true env k babylon_agent session_id tick_interval 0 w = (Ok n, w1) ->
  tick env babylon_agent session_id tick_interval n w1 = (Raise (Sig s), w2) ->
  s <> KeyboardInterrupt ->
  autonomous_loop env (k + S m) babylon_agent session_id tick_interval w
  = (Raise (Sig s), w2).
Proof.
  intros Hk Ht Hs. unfold autonomous_loop, try_except_interrupt.
  rewrite (bind_raise _ _ _
             (@while_true_raises env k m babylon_agent session_id tick_interval
                n w w1 w2 _ Hk Ht)).
  destruct s; [congruence | reflexivity | reflexivity].
Qed.

Lemma X15_interrupt_closes_the_client_witness :
  let env := interrupting KeyboardInterrupt 1 (Ok "hold") in
  let self := client_init "http://localhost:3000/api/a2a" "0xA11CE" 4242 "k" in
  let run := autonomous_loop env 4 {| strategy := "balanced" |} "11155111:4242"
               30 (world_with self) in
  fst run = Ok Stopped /\
  filter is_close (trace (snd run)) = [EvClose] /\
  sleeps_of (trace (snd run)) = 2%nat.
Proof.
  intros env self run. subst run.
  pose proof (@X15_interrupt_closes_the_client env {| strategy := "balanced" |}
                "11155111:4242" 30 1 2 1 (world_with self) _ _ self
                eq_refl eq_refl eq_refl) as H.
  simpl Nat.add in H. rewrite H.
  repeat split.
Defined.

Lemma X16_other_signals_skip_the_shutdown_witness :
  let env := interrupting CancelledError 0 (Ok "hold") in
  let self := client_init "http://localhost:3000/api/a2a" "0xA11CE" 4242 "k" in
  let run := autonomous_loop env 3 {| strategy := "balanced" |} "11155111:4242"
               30 (world_with self) in
  fst run = Raise (Sig CancelledError) /\
  filter is_close (trace (snd run)) = [].
Proof.
  intros env self run. subst run.
  assert (Hs : CancelledError <> KeyboardInterrupt) by discriminate.
  pose proof (@X16_other_signals_skip_the_shutdown env
                {| strategy := "balanced" |} "11155111:4242" 30 0 2 0
                (world_with self) _ _ CancelledError eq_refl eq_refl Hs) as H.
  simpl Nat.add in H. rewrite H.
  repeat split.
Defined.

(** ** Startup *)

Lemma main_eq (env : Env) (proc : Process) (fuel : nat) (w : World) :
  main env proc fuel w
  = match identity_setup proc with
    | Raise (Exc e) => (Ok (IdentitySetupFailed (str_exception e)), w)
    | Raise (Sig s) => (Raise (Sig s), w)
    | Ok identity =>
        let w1 := installed w (main_client proc identity) in
        match build_graph proc with
        | Raise (Exc e) => (Ok (AgentInitFailed (str_exception e)), w1)
        | Raise (Sig s) => (Raise (Sig s), w1)
        | Ok _ =>
            match py_int proc (getenv_default proc "TICK_INTERVAL" "30") with
            | Raise e => (Raise e, w1)
            | Ok tick_interval =>
                (status <- autonomous_loop env fuel
                             {| strategy :=
                                  getenv_default proc "AGENT_STRATEGY" "balanced" |}
                             (Identity.agentId identity) tick_interval ;;
                 ret (LoopEnded status)) w1
            end
        end
    end.
Proof.
  unfold main. unfold bind at 1. unfold try_except at 1. unfold bind at 1, lift at 1.
  destruct (identity_setup proc) as [identity | [e | s]]; try reflexivity.
  cbn [ret]. unfold bind at 1. cbn [set_a2a_client].
  fold (main_client proc identity). fold (installed w (main_client proc identity)).
  unfold bind at 1. unfold try_except at 1. unfold bind at 1, lift at 1.
  unfold agent_init.
  destruct (build_graph proc) as [[] | [e | s]]; reflexivity.
Qed.

(** X17. A failed identity setup ends [main] quietly and before anything
    else happens.  When the key variable is unset (so [from_key] is handed
    [None] and raises) or the key is refused, [main] returns normally after
    printing the failure: no client is installed, nothing is posted and no
    pass of the loop runs. *)
Theorem X17_identity_failure_ends_main (env : Env) (proc : Process)
    (fuel : nat) (w : World) (e : exception) :
  (getenv proc "AGENT0_PRIVATE_KEY" = None /\ from_key_none proc = Exc e) \/
  (exists key, getenv proc "AGENT0_PRIVATE_KEY" = Some key /\
               account_address proc key = Raise (Exc e)) ->
  main env proc fuel w = (Ok (IdentitySetupFailed (str_exception e)), w).
Proof.
  intros H. rewrite main_eq.
  assert (Hid : identity_setup proc = Raise (Exc e)).
  { unfold identity_setup. destruct H as [[Hk He] | (key & Hk & He)];
      rewrite Hk, He; reflexivity. }
  now rewrite Hid.
Qed.

Lemma X17_identity_failure_ends_main_witness :
  let proc := process_with [("TICK_INTERVAL", "5")] 1700000000 (Ok tt) in
  main (scripted [] (Ok "hold")) proc 3 empty_world
  = (Ok (IdentitySetupFailed "Cannot convert None to bytes"), empty_world).
Proof.
  intros proc.
  apply (@X17_identity_failure_ends_main (scripted [] (Ok "hold")) proc 3
           empty_world (TypeError "Cannot convert None to bytes")).
  left. split; reflexivity.
Defined.

(** X18. A failed agent setup ends [main] with the client left open.  When
    the identity is set up and building the model and graph raises, [main]
    returns normally after printing the failure; by then the client is
    installed, and it is not closed: the trace is as it was. *)
Theorem X18_agent_failure_leaves_client_open (env : Env) (proc : Process)
    (fuel : nat) (w : World) (identity : Identity.t) (e : exception) :
  identity_setup proc = Ok identity ->
  build_graph proc = Raise (Exc e) ->
  let run := main env proc fuel w in
  fst run = Ok (AgentInitFailed (str_exception e)) /\
  a2a_client (snd run) = Some (main_client proc identity) /\
  trace (snd run) = trace w /\
  action_memory (snd run) = action_memory w.
Proof.
  intros Hid Hg run. subst run. rewrite main_eq, Hid. cbv zeta. rewrite Hg.
  repeat split.
Qed.

Lemma X18_agent_failure_leaves_client_open_witness :
  let proc := process_with [("AGENT0_PRIVATE_KEY", "0xkey")] 1700000000
                (Raise (Exc (OtherError "The api_key client option must be set"))) in
  let run := main (scripted [] (Ok "hold")) proc 3 empty_world in
  fst run = Ok (AgentInitFailed "The api_key client option must be set") /\
  trace (snd run) = [] /\
  a2a_client (snd run)
  = Some (client_init "http://localhost:3000/api/a2a" "0xA11CE" 0 "0xkey").
Proof.
  intros proc run.
  destruct (@X18_agent_failure_leaves_client_open (scripted [] (Ok "hold")) proc 3
              empty_world _ (OtherError "The api_key client option must be set")
              eq_refl eq_refl) as (Hr & Hc & Ht & _).
  fold run in Hr, Hc, Ht. rewrite Hr, Hc, Ht. repeat split.
Defined.

(** X19. The agent goes by one id everywhere.  When startup gets through,
    the token id is the clock's seconds modulo 100000, so 0 <= id < 100000;
    the client is built once with counter 1; and the session id the loop
    hands to every [decide] is the ["x-agent-id"] header of the client's
    requests, "11155111:" followed by the token id. *)
Theorem X19_one_agent_id (env : Env) (proc : Process) (fuel : nat) (w : World)
    (identity : Identity.t) (tick_interval : Z) :
  identity_setup proc = Ok identity ->
  build_graph proc = Ok tt ->
  py_int proc (getenv_default proc "TICK_INTERVAL" "30") = Ok tick_interval ->
  let client := main_client proc identity in
  0 <= Identity.tokenId identity < 100000 /\
  Identity.tokenId identity = time_time proc mod 100000 /\
  agent_id client = "11155111:" ++ str_int (Identity.tokenId identity) /\
  message_id client = 1 /\
  In ("x-agent-id", agent_id client) (call_headers client) /\
  main env proc fuel w
  = (status <- autonomous_loop env fuel
                 {| strategy := getenv_default proc "AGENT_STRATEGY" "balanced" |}
                 (agent_id client) tick_interval ;;
     ret (LoopEnded status)) (installed w client).
Proof.
  intros Hid Hg Hi client.
  assert (Hident : Identity.tokenId identity = time_time proc mod 100000 /\
                   Identity.agentId identity
                   = "11155111:" ++ str_int (Identity.tokenId identity)).
  { unfold identity_setup in Hid.
    destruct (match getenv proc "AGENT0_PRIVATE_KEY" with
              | Some key => account_address proc key
              | None => Raise (from_key_none proc)
              end) as [addr | e]; [|discriminate].
    injection Hid as <-. split; reflexivity. }
  destruct Hident as [Htok Hagent].
  split; [rewrite Htok; apply Z.mod_pos_bound; lia|].
  split; [exact Htok|]. split; [reflexivity|]. split; [reflexivity|].
  split; [right; left; reflexivity|].
  rewrite main_eq, Hid. cbv zeta. rewrite Hg, Hi.
  change (agent_id client)
    with ("11155111:" ++ str_int (Identity.tokenId identity)).
  now rewrite <- Hagent.
Qed.

Lemma X19_one_agent_id_witness :
  let proc := process_with [("AGENT0_PRIVATE_KEY", "0xkey")] 1700004242 (Ok tt) in
  exists identity,
    identity_setup proc = Ok identity /\
    Identity.tokenId identity = 4242 /\
    agent_id (main_client proc identity) = "11155111:4242" /\
    0 <= Identity.tokenId identity < 100000.
Proof.
  intros proc. eexists. split; [reflexivity|]. split; [reflexivity|].
  destruct (@X19_one_agent_id (scripted [] (Ok "hold")) proc 0 empty_world _ 30
              eq_refl eq_refl eq_refl) as (Hrange & _ & Hagent & _).
  split; [exact Hagent | exact Hrange].
Defined.

(** X20. The tick interval is read outside every [try].  With startup
    through, an unset [TICK_INTERVAL] makes [main] read the text "30"; and
    when [int] refuses the text, the exception leaves [main] as it is,
    unlike the failures of the phases before: nothing is printed for it, no
    pass runs, and the client stays installed and open. *)
Theorem X20_bad_tick_interval_escapes (env : Env) (proc : Process)
    (fuel : nat) (w : World) (identity : Identity.t) :
  identity_setup proc = Ok identity ->
  build_graph proc = Ok tt ->
  (getenv proc "TICK_INTERVAL" = None ->
   getenv_default proc "TICK_INTERVAL" "30" = "30") /\
  (forall e,
     py_int proc (getenv_default proc "TICK_INTERVAL" "30") = Raise e ->
     main env proc fuel w = (Raise e, installed w (main_client proc identity))).
Proof.
  intros Hid Hg. split.
  - intros Hnone. unfold getenv_default. now rewrite Hnone.
  - intros e He. rewrite main_eq, Hid. cbv zeta. now rewrite Hg, He.
Qed.

Lemma X20_bad_tick_interval_escapes_witness :
  let proc := process_with [("AGENT0_PRIVATE_KEY", "0xkey");
                            ("TICK_INTERVAL", "30s")] 1700004242 (Ok tt) in
  fst (main (scripted [] (Ok "hold")) proc 3 empty_world)
  = Raise (Exc (OtherError "invalid literal for int() with base 10")).
Proof.
  intros proc.
  destruct (@X20_bad_tick_interval_escapes (scripted [] (Ok "hold")) proc 3
              empty_world _ eq_refl eq_refl) as (_ & Hbad).
  now rewrite (Hbad _ eq_refl).
Defined.

(** ** The loop with its tools *)

Lemma tool_step_refl (self : BabylonA2AClient) (w : World) :
  a2a_client w = Some self -> tool_step self w w [].
Proof.
  intros Hc. repeat split.
  - now rewrite app_nil_r.
  - constructor.
  - rewrite Hc. unfold bumped. cbn. now rewrite Z.add_0_r, set_message_id_same.
  - intros H; exact H.
Qed.

Lemma tool_step_extend (self : BabylonA2AClient) (w w' : World)
    (reqs : list HttpRequest) (evs : list Event) :
  posts_of evs = [] ->
  tool_step self w w' reqs -> tool_step self w (extend w' evs) reqs.
Proof.
  intros Hev (Hp & Hs & Hc & Hm). repeat split; try apply Hs.
  - cbn [extend trace]. now rewrite posts_of_app, Hev, app_nil_r.
  - exact Hc.
  - exact Hm.
Qed.

Lemma tool_step_extend_l (self : BabylonA2AClient) (w w' : World)
    (reqs : list HttpRequest) (evs : list Event) :
  posts_of evs = [] ->
  tool_step self (extend w evs) w' reqs -> tool_step self w w' reqs.
Proof.
  intros Hev (Hp & Hs & Hc & Hm). repeat split; try apply Hs.
  - rewrite Hp. cbn [extend trace]. now rewrite posts_of_app, Hev, app_nil_r.
  - exact Hc.
  - exact Hm.
Qed.

Section LoopWithTools.

Variable env : Env.
Variable babylon_agent : BabylonAgent.
Variable session_id : string.
Variable tick_interval : Z.
Hypothesis tools_only : graph_uses_tools env.

Lemma decide_step (w : World) (self : BabylonA2AClient) :
  a2a_client w = Some self ->
  exists reqs,
    tool_step self w (snd (decide env babylon_agent session_id w)) reqs.
Proof.
  intros Hc. rewrite decide_eq.
  destruct (tools_only (decide_prompt babylon_agent env w) session_id w)
    as [ts Hts].
  rewrite Hts. destruct (invoke_all_steps env ts w Hc) as (reqs & Hstep & _).
  now exists reqs.
Qed.

Lemma tick_step (tick_count : Z) (w : World) (self : BabylonA2AClient) :
  a2a_client w = Some self ->
  exists reqs,
    tool_step self w
      (snd (tick env babylon_agent session_id tick_interval tick_count w)) reqs.
Proof.
  intros Hc.
  set (w0 := extend w [EvPrint (TickBanner (tick_count + 1))]).
  assert (Hc0 : a2a_client w0 = Some self) by exact Hc.
  destruct (decide_step w0 Hc0) as (reqs & Hstep).
  exists reqs.
  destruct (decide env babylon_agent session_id w0) as [r w2] eqn:Hd.
  rewrite (tick_eq env babylon_agent session_id tick_interval tick_count w Hd).
  cbn [snd] in Hstep.
  apply (@tool_step_extend_l self w _ reqs [EvPrint (TickBanner (tick_count + 1))]);
    [reflexivity|]. fold w0.
  destruct r as [decision | [e | s]].
  - rewrite tick_tail, extend_extend. cbn [snd].
    apply tool_step_extend; [reflexivity | exact Hstep].
  - rewrite tick_tail, extend_extend. cbn [snd].
    apply tool_step_extend; [reflexivity | exact Hstep].
  - exact Hstep.
Qed.

Lemma while_true_step (fuel : nat) (tick_count : Z) (w : World)
    (self : BabylonA2AClient) :
  a2a_client w = Some self ->
  exists reqs,
    tool_step self w
      (snd (while_true env fuel babylon_agent session_id tick_interval
              tick_count w)) reqs.
Proof.
  revert tick_count w self. induction fuel as [|fuel IH];
    intros tick_count w self Hc.
  - exists []. now apply tool_step_refl.
  - destruct (tick_step tick_count w Hc) as (r1 & Hstep).
    cbn [while_true]. unfold bind.
    destruct (tick env babylon_agent session_id tick_interval tick_count w)
      as [[n | e] w1].
    + cbn [snd] in Hstep.
      destruct (IH n w1 _ (proj1 (proj2 (proj2 Hstep)))) as (r2 & Hrest).
      exists (r1 ++ r2)%list. now apply tool_step_trans with (w1 := w1).
    + now exists r1.
Qed.

Lemma autonomous_loop_step (fuel : nat) (w : World) (self : BabylonA2AClient) :
  a2a_client w = Some self ->
  exists reqs,
    tool_step self w
      (snd (autonomous_loop env fuel babylon_agent session_id tick_interval w))
      reqs.
Proof.
  intros Hc. destruct (while_true_step fuel 0 w Hc) as (reqs & Hstep).
  exists reqs. unfold autonomous_loop, try_except_interrupt. unfold bind at 1.
  destruct (while_true env fuel babylon_agent session_id tick_interval 0 w)
    as [[n | [e | s]] w1]; cbn [snd] in Hstep; try exact Hstep.
  destruct s; try exact Hstep.
  pose proof (proj1 (proj2 (proj2 Hstep))) as Hc1.
  rewrite (bind_ok _ _ _ (print_eq ShuttingDown w1)).
  assert (Hc' : a2a_client (extend w1 [EvPrint ShuttingDown])
                = Some (bumped self (List.length reqs))) by exact Hc1.
  rewrite (bind_ok _ _ _ (close_on_client _ Hc')).
  rewrite (bind_ok _ _ _ (print_eq Goodbye _)).
  unfold ret. cbn [snd]. rewrite !extend_extend.
  apply tool_step_extend; [reflexivity | exact Hstep].
Qed.

End LoopWithTools.

(** X21. The whole loop keeps what the tools keep.  If the graph touches
    the world through the five tools only, then however many passes run,
    whatever they decide and however the loop ends, the requests posted
    since the loop began carry consecutive ids from the client's counter
    on, none twice, all with the client's headers and URL; the client is
    still installed; and a log of at most 20 entries still has at most
    20. *)
Theorem X21_loop_keeps_ids_and_memory_bound (env : Env)
    (babylon_agent : BabylonAgent) (session_id : string) (tick_interval : Z)
    (fuel : nat) (w : World) (self : BabylonA2AClient) :
  graph_uses_tools env ->
  a2a_client w = Some self ->
  let w' := snd (autonomous_loop env fuel babylon_agent session_id
                   tick_interval w) in
  exists reqs : list HttpRequest,
    posts_of (trace w') = (posts_of (trace w) ++ reqs)%list /\
    request_ids reqs
    = map (fun i => Some (JInt (message_id self + Z.of_nat i)))
          (seq 0 (List.length reqs)) /\
    NoDup (request_ids reqs) /\
    Forall (fun req => headers req = call_headers self /\ url req = http_url self)
           reqs /\
    a2a_client w'
    = Some (set_message_id (message_id self + Z.of_nat (List.length reqs)) self) /\
    ((List.length (action_memory w) <= 20)%nat ->
     (List.length (action_memory w') <= 20)%nat).
Proof.
  intros Htools Hc w'.
  destruct (@autonomous_loop_step env babylon_agent session_id tick_interval
              Htools fuel w self Hc)
    as (reqs & Hp & [Hids Hall] & Hcl & Hmem).
  exists reqs. repeat split; try assumption.
  rewrite Hids. apply ids_from_NoDup.
Qed.

Lemma invoke_planned (script : list PostOutcome) (plan : list ToolCall)
    (decision : Result string) (t : ToolCall) (w : World) :
  invoke (planned script plan decision) t w
  = invoke (scripted script decision) t w.
Proof. destruct t; reflexivity. Qed.

Lemma invoke_all_planned (script : list PostOutcome) (plan : list ToolCall)
    (decision : Result string) (ts : list ToolCall) (w : World) :
  invoke_all (planned script plan decision) ts w
  = invoke_all (scripted script decision) ts w.
Proof.
  revert w. induction ts as [|t rest IH]; intros w; [reflexivity|].
  cbn [invoke_all]. now rewrite invoke_planned, IH.
Qed.

Lemma planned_uses_tools (script : list PostOutcome) (plan : list ToolCall)
    (decision : Result string) :
  graph_uses_tools (planned script plan decision).
Proof.
  intros prompt session w. exists plan. cbn [planned graph_ainvoke snd].
  symmetry. apply invoke_all_planned.
Qed.

Lemma X21_loop_keeps_ids_and_memory_bound_witness :
  let env := planned [Response 200 (Ok (JObj [("result", bought)]))]
               [BuyShares "m1" "yes" 0; GetMarkets] (Ok "bought") in
  let self := client_init "http://localhost:3000/api/a2a" "0xA11CE" 4242 "k" in
  let w' := snd (autonomous_loop env 2 {| strategy := "balanced" |}
                   "11155111:4242" 30 (world_with self)) in
  a2a_client (world_with self) = Some self /\
  request_ids (posts_of (trace w'))
  = [Some (JInt 1); Some (JInt 2); Some (JInt 3); Some (JInt 4)] /\
  NoDup (request_ids (posts_of (trace w'))) /\
  map action (action_memory w') = ["BUY_YES"].
Proof.
  intros env self w'. split; [reflexivity|]. split; [reflexivity|].
  destruct (@X21_loop_keeps_ids_and_memory_bound env {| strategy := "balanced" |}
              "11155111:4242" 30 2 (world_with self) self
              (planned_uses_tools _ _ _) eq_refl)
    as (reqs & Hp & _ & Hnd & _).
  fold w' in Hp. split; [rewrite Hp; exact Hnd | reflexivity].
Defined.
